(** * A shallow embedding of the personal-finance bookkeeping service

    The development follows the layout of the Python package:

    - [app/domain/errors.py]       : the exception classes ([exn], [result]);
    - [app/domain/models.py]       : [TransactionType], [Money], [Transaction];
    - [app/domain/repositories.py] : the abstract store ([TransactionRepository]);
    - [app/infrastructure/repositories/transaction_repo_sqlalchemy.py] :
      [TransactionORM] and [SQLAlchemyTransactionRepository];
    - [tests/test_transaction_service.py] : [InMemoryTransactionRepository];
    - [app/application/services/transaction_service.py] : [TransactionService].

    Python values are modelled as follows.  A [str] is a [string]; [None]
    is [None] of an [option]; a raised exception is [Raise e] of [result]; a
    [Decimal] is a finite decimal (unscaled integer and scale); a [datetime]
    is its wall-clock reading together with an optional UTC offset; a [dict]
    is an association list in insertion order.  Methods of objects holding
    state (the store) are computations in the state-and-exception monad [M]. *)

From Stdlib Require Import ZArith List String Ascii Bool Arith Lia.
Import ListNotations.

Local Open Scope string_scope.
Local Open Scope list_scope.
Local Open Scope Z_scope.

(** ** Exceptions ([app/domain/errors.py] and the ones of the libraries) *)

Inductive exn : Type :=
| DomainValidationError (msg : string)   (* class DomainValidationError(ValueError) *)
| NotFoundError (msg : string)           (* class NotFoundError(LookupError) *)
| ValueError (msg : string)              (* builtin, raised by Enum lookup *)
| TypeError (msg : string)               (* builtin, naive/aware comparison *)
| IntegrityError (msg : string)          (* sqlalchemy.exc, primary key clash *)
| DataError (msg : string).              (* sqlalchemy.exc, value out of column range *)

Inductive result (A : Type) : Type :=
| Ok (a : A)
| Raise (e : exn).
Arguments Ok {A} a.
Arguments Raise {A} e.

Definition is_validation_error {A} (r : result A) : bool :=
  match r with
  | Raise (DomainValidationError _) => true
  | _ => false
  end.

(** ** [decimal.Decimal], finite values *)

Module Decimal.

(** [mk u s] stands for the number [u / 10^s]; [Decimal("10.50")] is
    [mk 1050 2].  Arithmetic is exact (the context precision of 28 digits
    is not modelled), and NaN and the infinities are left out. *)
Record t : Type := mk { unscaled : Z; scale : nat }.

Definition pow10 (n : nat) : Z := 10 ^ Z.of_nat n.

Definition zero : t := mk 0 0.                      (* Decimal("0") *)

Definition add (a b : t) : t :=
  let s := Nat.max (scale a) (scale b) in
  mk (unscaled a * pow10 (s - scale a) + unscaled b * pow10 (s - scale b)) s.

Definition compare (a b : t) : comparison :=
  Z.compare (unscaled a * pow10 (scale b)) (unscaled b * pow10 (scale a)).

Definition eqb (a b : t) : bool :=
  match compare a b with Eq => true | _ => false end.
Definition leb (a b : t) : bool :=
  match compare a b with Gt => false | _ => true end.
Definition ltb (a b : t) : bool :=
  match compare a b with Lt => true | _ => false end.

(** [sum l] is the running total of a loop [acc += x] started at
    [Decimal("0")]. *)
Definition sum (l : list t) : t := fold_left add l zero.

(** Rounding of [n / d] to the nearest integer, ties to even. *)
Definition round_half_even (n d : Z) : Z :=
  let q := n / d in
  let r := n mod d in
  match Z.compare (2 * r) d with
  | Lt => q
  | Gt => q + 1
  | Eq => if Z.even q then q else q + 1
  end.

(** [quantize places a]: the value of [a] at exactly [places] fractional
    digits. *)
Definition quantize (places : nat) (a : t) : t :=
  if (scale a <=? places)%nat
  then mk (unscaled a * pow10 (places - scale a)) places
  else mk (round_half_even (unscaled a) (pow10 (scale a - places))) places.


End Decimal.

(** ** [datetime.datetime] *)

(** [wall] is the reading of the fields year .. microsecond, counted in
    microseconds; [tzinfo] is [None] for a naive value and [Some off] for an
    aware one, [off] being the UTC offset in microseconds. *)
Record datetime : Type := mk_datetime { wall : Z; tzinfo : option Z }.

Definition UTC : Z := 0.

(** [value.replace(tzinfo=tz)] *)
Definition replace_tzinfo (value : datetime) (tz : Z) : datetime :=
  {| wall := wall value; tzinfo := Some tz |}.

(** The point in time an aware value denotes. *)
Definition instant (wall_ off : Z) : Z := wall_ - off.

(** The instant of a value, a naive one being read as UTC; stored
    timestamps order by it. *)
Definition utc_instant (d : datetime) : Z :=
  instant (wall d) (match tzinfo d with Some off => off | None => UTC end).

(** Python's ordering of two datetimes: two naive values compare by their
    fields, two aware values by their instants, and a mixed comparison is a
    [TypeError] ([None] here). *)
Definition datetime_compare (a b : datetime) : option comparison :=
  match tzinfo a, tzinfo b with
  | None, None => Some (Z.compare (wall a) (wall b))
  | Some oa, Some ob => Some (Z.compare (instant (wall a) oa) (instant (wall b) ob))
  | _, _ => None
  end.

(** [a > b] *)
Definition datetime_gt (a b : datetime) : result bool :=
  match datetime_compare a b with
  | Some Gt => Ok true
  | Some _ => Ok false
  | None => Raise (TypeError "can't compare offset-naive and offset-aware datetimes")
  end.

(** [a == b]: never raises; a naive value differs from every aware one. *)
Definition datetime_eqb (a b : datetime) : bool :=
  match datetime_compare a b with
  | Some Eq => true
  | _ => false
  end.

(** ** [app/domain/models.py] *)

Inductive TransactionType : Type := expense | income.

Module TransactionTypeM.
(** [.value] of the [str] enum *)
Definition value (t : TransactionType) : string :=
  match t with
  | expense => "expense"
  | income => "income"
  end.

(** [TransactionType(s)]: lookup by value, [ValueError] when there is none. *)
Definition of_value (s : string) : result TransactionType :=
  if String.eqb s "expense" then Ok expense
  else if String.eqb s "income" then Ok income
  else Raise (ValueError (s ++ " is not a valid TransactionType")).

Definition eqb (a b : TransactionType) : bool :=
  match a, b with
  | expense, expense | income, income => true
  | _, _ => false
  end.
End TransactionTypeM.

Module Money.

Record t : Type := mk { amount : Decimal.t; currency : string }.

Definition post_init (self : t) : result unit :=
  if Decimal.leb (amount self) Decimal.zero
  then Raise (DomainValidationError "Amount must be greater than 0")
  else if (String.eqb (currency self) "" || negb (String.length (currency self) =? 3)%nat)%bool
  then Raise (DomainValidationError "Currency must be a 3-letter code (e.g. RUB)")
  else Ok tt.

(** [Money(amount=a, currency=c)]: the generated [__init__] sets the fields
    and runs [__post_init__]. *)
Definition init (a : Decimal.t) (c : string) : result t :=
  match post_init (mk a c) with
  | Ok _ => Ok (mk a c)
  | Raise e => Raise e
  end.

(** The generated [__eq__]. *)
Definition eqb (m1 m2 : t) : bool :=
  Decimal.eqb (amount m1) (amount m2) && String.eqb (currency m1) (currency m2).

End Money.

(** [a == b] on [str | None] *)
Definition opt_str_eqb (a b : option string) : bool :=
  match a, b with
  | None, None => true
  | Some x, Some y => String.eqb x y
  | _, _ => false
  end.

Module Transaction.

Record t : Type := mk {
  id : string;
  user_id : string;
  type : TransactionType;
  money : Money.t;
  occurred_at : datetime;
  created_at : datetime;
  category_id : option string;
  account_id : option string;
  description : option string
}.

(** [Transaction.create].  The two values the function draws from its
    environment are arguments here: [uuid] is the text of [uuid4()] and
    [clock] the reading of [datetime.now(tz=UTC)]. *)
Definition create (uuid : string) (clock : Z)
    (user_id : string) (type : TransactionType) (money : Money.t)
    (occurred_at : datetime)
    (category_id account_id description : option string) : result t :=
  if String.eqb user_id ""
  then Raise (DomainValidationError "user_id is required")
  else match tzinfo occurred_at with
  | None => Raise (DomainValidationError "occurred_at must be timezone-aware (e.g. UTC)")
  | Some _ =>
      let now := mk_datetime clock (Some UTC) in
      Ok (mk uuid user_id type money occurred_at now category_id account_id description)
  end.

(** The generated [__eq__]: the fields compared with [==], in order. *)
Definition eqb (a b : t) : bool :=
  String.eqb (id a) (id b)
  && String.eqb (user_id a) (user_id b)
  && TransactionTypeM.eqb (type a) (type b)
  && Money.eqb (money a) (money b)
  && datetime_eqb (occurred_at a) (occurred_at b)
  && datetime_eqb (created_at a) (created_at b)
  && opt_str_eqb (category_id a) (category_id b)
  && opt_str_eqb (account_id a) (account_id b)
  && opt_str_eqb (description a) (description b).

End Transaction.


(** ** [dict]: an association list in insertion order *)

(** The [==] of a key type. *)
Class KeyEq (K : Type) : Type := key_eqb : K -> K -> bool.

#[global] Instance string_KeyEq : KeyEq string := String.eqb.
#[global] Instance opt_string_KeyEq : KeyEq (option string) := opt_str_eqb.

Definition dict (K V : Type) : Type := list (K * V).

(** [list(d)], the keys in insertion order *)
Definition keys {K V : Type} (d : dict K V) : list K := map fst d.

(** [d.get(k)] *)
Fixpoint dict_get {K V : Type} `{KeyEq K} (k : K) (d : dict K V) : option V :=
  match d with
  | [] => None
  | (k', v) :: d' => if key_eqb k k' then Some v else dict_get k d'
  end.

(** [d.get(k, default)] *)
Definition dict_get_default {K V : Type} `{KeyEq K} (k : K) (default : V)
    (d : dict K V) : V :=
  match dict_get k d with
  | Some v => v
  | None => default
  end.

(** [d[k] = v]: a key already present keeps its place, a new one goes last. *)
Fixpoint dict_set {K V : Type} `{KeyEq K} (k : K) (v : V) (d : dict K V) : dict K V :=
  match d with
  | [] => [(k, v)]
  | (k', v') :: d' =>
      if key_eqb k k' then (k', v) :: d' else (k', v') :: dict_set k v d'
  end.

(** [dict.fromkeys(l)] *)
Definition fromkeys {K : Type} `{KeyEq K} (l : list K) : dict K unit :=
  fold_left (fun d k => dict_set k tt d) l [].

(** [{k: v for k in l}] *)
Definition dict_comprehension {K V : Type} `{KeyEq K} (l : list K) (v : V) : dict K V :=
  fold_left (fun d k => dict_set k v d) l [].

(** [k in l] for a list [l] *)
Definition mem {K : Type} `{KeyEq K} (k : K) (l : list K) : bool :=
  existsb (key_eqb k) l.

(** What the words "duplicates removed, first-seen order kept" say of a list:
    each element stays where it first occurs and its later copies go. *)
Fixpoint dedup_first_seen {K : Type} `{KeyEq K} (l : list K) : list K :=
  match l with
  | [] => []
  | x :: l' => x :: filter (fun y => negb (key_eqb y x)) (dedup_first_seen l')
  end.

(** ** The state-and-exception monad of the store's methods *)

(** A computation over a store of type [R] returns a value or raises, and
    leaves a store behind in both cases. *)
Definition M (R A : Type) : Type := R -> result A * R.

Definition ret {R A : Type} (a : A) : M R A := fun r => (Ok a, r).

Definition raise {R A : Type} (e : exn) : M R A := fun r => (Raise e, r).

Definition lift {R A : Type} (x : result A) : M R A := fun r => (x, r).

Definition bind {R A B : Type} (m : M R A) (k : A -> M R B) : M R B :=
  fun r =>
    match m r with
    | (Ok a, r') => k a r'
    | (Raise e, r') => (Raise e, r')
    end.

Declare Scope monad_scope.
Delimit Scope monad_scope with monad.
Notation "x <- m ;; k" := (bind m (fun x => k))
  (at level 61, m at next level, right associativity) : monad_scope.
Notation "m ;;; k" := (bind m (fun _ => k))
  (at level 61, right associativity) : monad_scope.
Local Open Scope monad_scope.

(** [[f(x) for x in l]] where [f] may raise *)
Fixpoint traverse {A B : Type} (f : A -> result B) (l : list A) : result (list B) :=
  match l with
  | [] => Ok []
  | x :: l' =>
      match f x with
      | Raise e => Raise e
      | Ok y =>
          match traverse f l' with
          | Raise e => Raise e
          | Ok ys => Ok (y :: ys)
          end
      end
  end.

(** [[x for x in l if p(x)]] where [p] may raise *)
Fixpoint filter_result {A : Type} (p : A -> result bool) (l : list A) : result (list A) :=
  match l with
  | [] => Ok []
  | x :: l' =>
      match p x with
      | Raise e => Raise e
      | Ok b =>
          match filter_result p l' with
          | Raise e => Raise e
          | Ok ys => Ok (if b then x :: ys else ys)
          end
      end
  end.

(** ** [app/domain/repositories.py]: the abstract store *)

Class TransactionRepository (R : Type) : Type := {
  add : Transaction.t -> M R unit;
  get : string -> M R (option Transaction.t);
  list_by_user : string -> M R (list Transaction.t);
  list_by_user_and_categories : string -> list string -> M R (list Transaction.t);
  list_by_user_and_period : string -> datetime -> datetime -> M R (list Transaction.t)
}.

(** ** [app/application/services/transaction_service.py] *)

Module TransactionService.

Section Service.

Context {R : Type} {repo : TransactionRepository R}.

(** [try: TransactionType(tx_type) except ValueError as e: raise ...] *)
Definition parse_type (tx_type : string) : result TransactionType :=
  match TransactionTypeM.of_value tx_type with
  | Ok ttype => Ok ttype
  | Raise (ValueError _) =>
      Raise (DomainValidationError ("Unsupported transaction type: " ++ tx_type))
  | Raise e => Raise e
  end.

Definition _normalize_datetime (value : datetime) : datetime :=
  match tzinfo value with
  | None => replace_tzinfo value UTC
  | Some _ => value
  end.

(** [uuid] and [clock] are what [uuid4()] and [datetime.now] give inside
    [Transaction.create]. *)
Definition record_transaction (uuid : string) (clock : Z)
    (user_id tx_type : string) (amount : Decimal.t) (currency : string)
    (occurred_at : datetime) (category_id account_id description : option string)
    : M R Transaction.t :=
  ttype <- lift (parse_type tx_type) ;;
  let occurred_at :=
    match tzinfo occurred_at with
    | None => replace_tzinfo occurred_at UTC
    | Some _ => occurred_at
    end in
  money <- lift (Money.init amount currency) ;;
  tx <- lift (Transaction.create uuid clock user_id ttype money occurred_at
                category_id account_id description) ;;
  add tx ;;;
  ret tx.

Definition get_transaction (user_id transaction_id : string) : M R Transaction.t :=
  tx <- get transaction_id ;;
  match tx with
  | None => raise (NotFoundError "Transaction not found")
  | Some tx =>
      if negb (String.eqb (Transaction.user_id tx) user_id)
      then raise (NotFoundError "Transaction not found")
      else ret tx
  end.

Definition list_transactions (user_id : string) : M R (list Transaction.t) :=
  list_by_user user_id.

(** The body of the loop of [get_transactions_by_categories], on the pair
    [(total_expense, expense_by_category)]. *)
Definition by_categories_step (acc : Decimal.t * dict string Decimal.t)
    (tx : Transaction.t) : Decimal.t * dict string Decimal.t :=
  let '(total_expense, expense_by_category) := acc in
  match Transaction.type tx with
  | expense =>
      let total_expense := Decimal.add total_expense (Money.amount (Transaction.money tx)) in
      match Transaction.category_id tx with
      | Some c =>
          (total_expense,
           dict_set c
             (Decimal.add (dict_get_default c Decimal.zero expense_by_category)
                          (Money.amount (Transaction.money tx)))
             expense_by_category)
      | None => (total_expense, expense_by_category)
      end
  | income => (total_expense, expense_by_category)
  end.

Definition get_transactions_by_categories (user_id : string) (category_ids : list string)
    : M R (list Transaction.t * Decimal.t * dict string Decimal.t) :=
  let unique_category_ids := keys (fromkeys category_ids) in
  match unique_category_ids with
  | [] => raise (DomainValidationError "category_ids must not be empty")
  | _ :: _ =>
      transactions <- list_by_user_and_categories user_id unique_category_ids ;;
      let expense_by_category := dict_comprehension unique_category_ids Decimal.zero in
      let total_expense := Decimal.zero in
      let '(total_expense, expense_by_category) :=
        fold_left by_categories_step transactions (total_expense, expense_by_category) in
      ret (transactions, total_expense, expense_by_category)
  end.

(** The body of the loop of [get_transactions_for_period]. *)
Definition for_period_step (acc : Decimal.t * dict (option string) Decimal.t)
    (tx : Transaction.t) : Decimal.t * dict (option string) Decimal.t :=
  let '(total_expense, expense_by_category) := acc in
  match Transaction.type tx with
  | expense =>
      (Decimal.add total_expense (Money.amount (Transaction.money tx)),
       dict_set (Transaction.category_id tx)
         (Decimal.add
            (dict_get_default (Transaction.category_id tx) Decimal.zero expense_by_category)
            (Money.amount (Transaction.money tx)))
         expense_by_category)
  | income => (total_expense, expense_by_category)
  end.

Definition get_transactions_for_period (user_id : string) (start_at end_at : datetime)
    : M R (list Transaction.t * Decimal.t * dict (option string) Decimal.t) :=
  let start_at := _normalize_datetime start_at in
  let end_at := _normalize_datetime end_at in
  inverted <- lift (datetime_gt start_at end_at) ;;
  if (inverted : bool)
  then raise (DomainValidationError "start_at must be before or equal to end_at")
  else
    transactions <- list_by_user_and_period user_id start_at end_at ;;
    let '(total_expense, expense_by_category) :=
      fold_left for_period_step transactions (Decimal.zero, []) in
    ret (transactions, total_expense, expense_by_category).

End Service.

End TransactionService.

(** ** [transaction_repo_sqlalchemy.py]: the table and the SQL store *)

(** The column types of the table, read as they are declared, whatever the
    database behind them: a value keeps what the declared type can hold.
    [Numeric(precision, scale)] rounds to [scale] fractional digits (ties to
    even here; the examples below do not depend on the tie rule) and refuses
    more than [precision] digits in all; [String(n)] refuses more than [n]
    characters; [String] and [DateTime(timezone=True)] hold their values
    unchanged.  A database that cannot hold a declared type is not
    modelled. *)
Definition Numeric (precision scale : nat) (v : Decimal.t) : result Decimal.t :=
  let q := Decimal.quantize scale v in
  if Z.abs (Decimal.unscaled q) <? Decimal.pow10 precision
  then Ok q
  else Raise (DataError "numeric field overflow").

Definition String_ (n : nat) (v : string) : result string :=
  if (String.length v <=? n)%nat
  then Ok v
  else Raise (DataError "value too long for type character varying").

Definition String_nullable (n : nat) (v : option string) : result (option string) :=
  match v with
  | None => Ok None
  | Some s =>
      match String_ n s with
      | Ok s' => Ok (Some s')
      | Raise e => Raise e
      end
  end.

Module TransactionORM.

Record t : Type := mk {
  id : string;                    (* String, primary_key=True *)
  user_id : string;               (* String *)
  type : string;                  (* String *)
  amount : Decimal.t;             (* Numeric(12, 2) *)
  currency : string;              (* String(3) *)
  occurred_at : datetime;         (* DateTime(timezone=True) *)
  created_at : datetime;          (* DateTime(timezone=True) *)
  category_id : option string;    (* String, nullable *)
  account_id : option string;     (* String, nullable *)
  description : option string     (* String(500), nullable *)
}.

(** The row as the table holds it: each column at its declared type. *)
Definition stored (row : t) : result t :=
  match Numeric 12 2 (amount row) with
  | Raise e => Raise e
  | Ok amount' =>
      match String_ 3 (currency row) with
      | Raise e => Raise e
      | Ok currency' =>
          match String_nullable 500 (description row) with
          | Raise e => Raise e
          | Ok description' =>
              Ok (mk (id row) (user_id row) (type row) amount' currency'
                     (occurred_at row) (created_at row)
                     (category_id row) (account_id row) description')
          end
      end
  end.

End TransactionORM.

(** The database: the rows of the table [transactions], oldest insert first. *)
Definition table : Type := list TransactionORM.t.

(** [session.get(TransactionORM, pk)] *)
Definition session_get (pk : string) (rows : table) : option TransactionORM.t :=
  find (fun row => String.eqb (TransactionORM.id row) pk) rows.

(** [session.add(row); session.commit()]: the insert fails on a primary key
    already there, and the failed transaction changes nothing. *)
Definition session_add_commit (row : TransactionORM.t) (rows : table) : result table :=
  match TransactionORM.stored row with
  | Raise e => Raise e
  | Ok row' =>
      match session_get (TransactionORM.id row') rows with
      | Some _ => Raise (IntegrityError "UNIQUE constraint failed: transactions.id")
      | None => Ok (rows ++ [row'])
      end
  end.

(** [.order_by(column.desc())]: rows of equal key keep their order. *)
Fixpoint insert_desc (key : TransactionORM.t -> Z) (row : TransactionORM.t)
    (sorted : table) : table :=
  match sorted with
  | [] => [row]
  | r :: rest =>
      if key r <? key row then row :: r :: rest
      else r :: insert_desc key row rest
  end.

Definition order_by_desc (key : TransactionORM.t -> Z) (rows : table) : table :=
  fold_right (insert_desc key) [] rows.

(** [column.in_(values)]; a NULL column is in no list. *)
Definition in_ (column : option string) (values : list string) : bool :=
  match column with
  | None => false
  | Some c => mem c values
  end.

Module SQLAlchemyTransactionRepository.

Definition _to_domain (row : TransactionORM.t) : result Transaction.t :=
  match TransactionTypeM.of_value (TransactionORM.type row) with
  | Raise e => Raise e
  | Ok type =>
      match Money.init (TransactionORM.amount row) (TransactionORM.currency row) with
      | Raise e => Raise e
      | Ok money =>
          Ok (Transaction.mk (TransactionORM.id row) (TransactionORM.user_id row)
                type money
                (TransactionORM.occurred_at row) (TransactionORM.created_at row)
                (TransactionORM.category_id row) (TransactionORM.account_id row)
                (TransactionORM.description row))
      end
  end.

Definition add (tx : Transaction.t) : M table unit :=
  fun rows =>
    let row :=
      TransactionORM.mk (Transaction.id tx) (Transaction.user_id tx)
        (TransactionTypeM.value (Transaction.type tx))
        (Money.amount (Transaction.money tx)) (Money.currency (Transaction.money tx))
        (Transaction.occurred_at tx) (Transaction.created_at tx)
        (Transaction.category_id tx) (Transaction.account_id tx)
        (Transaction.description tx) in
    match session_add_commit row rows with
    | Ok rows' => (Ok tt, rows')
    | Raise e => (Raise e, rows)
    end.

Definition get (transaction_id : string) : M table (option Transaction.t) :=
  fun rows =>
    match session_get transaction_id rows with
    | None => (Ok None, rows)
    | Some row =>
        match _to_domain row with
        | Ok tx => (Ok (Some tx), rows)
        | Raise e => (Raise e, rows)
        end
    end.

Definition list_by_user (user_id : string) : M table (list Transaction.t) :=
  fun rows =>
    let selected :=
      order_by_desc (fun row => utc_instant (TransactionORM.created_at row))
        (filter (fun row => String.eqb (TransactionORM.user_id row) user_id) rows) in
    (traverse _to_domain selected, rows).

Definition list_by_user_and_categories (user_id : string) (category_ids : list string)
    : M table (list Transaction.t) :=
  fun rows =>
    match category_ids with
    | [] => (Ok [], rows)
    | _ :: _ =>
        let selected :=
          order_by_desc (fun row => utc_instant (TransactionORM.created_at row))
            (filter (fun row => in_ (TransactionORM.category_id row) category_ids)
               (filter (fun row => String.eqb (TransactionORM.user_id row) user_id) rows)) in
        (traverse _to_domain selected, rows)
    end.

Definition list_by_user_and_period (user_id : string) (start_at end_at : datetime)
    : M table (list Transaction.t) :=
  fun rows =>
    let selected :=
      order_by_desc (fun row => utc_instant (TransactionORM.occurred_at row))
        (filter (fun row => utc_instant (TransactionORM.occurred_at row) <=? utc_instant end_at)
           (filter (fun row => utc_instant start_at <=? utc_instant (TransactionORM.occurred_at row))
              (filter (fun row => String.eqb (TransactionORM.user_id row) user_id) rows))) in
    (traverse _to_domain selected, rows).

#[global] Instance repo : TransactionRepository table := {
  add := add;
  get := get;
  list_by_user := list_by_user;
  list_by_user_and_categories := list_by_user_and_categories;
  list_by_user_and_period := list_by_user_and_period
}.

End SQLAlchemyTransactionRepository.

(** ** [tests/test_transaction_service.py]: the in-memory store *)

Module InMemoryTransactionRepository.

(** [self._items] *)
Definition items : Type := dict string Transaction.t.

Definition values (d : items) : list Transaction.t := map snd d.

Definition add (tx : Transaction.t) : M items unit :=
  fun _items => (Ok tt, dict_set (Transaction.id tx) tx _items).

Definition get (transaction_id : string) : M items (option Transaction.t) :=
  fun _items => (Ok (dict_get transaction_id _items), _items).

Definition list_by_user (user_id : string) : M items (list Transaction.t) :=
  fun _items =>
    (Ok (filter (fun tx => String.eqb (Transaction.user_id tx) user_id) (values _items)),
     _items).

Definition list_by_user_and_categories (user_id : string) (category_ids : list string)
    : M items (list Transaction.t) :=
  fun _items =>
    (Ok (filter (fun tx => String.eqb (Transaction.user_id tx) user_id
                           && in_ (Transaction.category_id tx) category_ids)
           (values _items)),
     _items).

(** [a <= b] on datetimes *)
Definition datetime_le (a b : datetime) : result bool :=
  match datetime_compare a b with
  | Some Gt => Ok false
  | Some _ => Ok true
  | None => Raise (TypeError "can't compare offset-naive and offset-aware datetimes")
  end.

(** [tx.user_id == user_id and start_at <= tx.occurred_at <= end_at] *)
Definition in_period (user_id : string) (start_at end_at : datetime)
    (tx : Transaction.t) : result bool :=
  if String.eqb (Transaction.user_id tx) user_id
  then match datetime_le start_at (Transaction.occurred_at tx) with
       | Raise e => Raise e
       | Ok false => Ok false
       | Ok true => datetime_le (Transaction.occurred_at tx) end_at
       end
  else Ok false.

Definition list_by_user_and_period (user_id : string) (start_at end_at : datetime)
    : M items (list Transaction.t) :=
  fun _items =>
    (filter_result (in_period user_id start_at end_at) (values _items), _items).

#[global] Instance repo : TransactionRepository items := {
  add := add;
  get := get;
  list_by_user := list_by_user;
  list_by_user_and_categories := list_by_user_and_categories;
  list_by_user_and_period := list_by_user_and_period
}.

End InMemoryTransactionRepository.

(** ** A store that records the calls it receives *)

Inductive call : Type :=
| Call_add (tx : Transaction.t)
| Call_get (transaction_id : string)
| Call_list_by_user (user_id : string)
| Call_list_by_user_and_categories (user_id : string) (category_ids : list string)
| Call_list_by_user_and_period (user_id : string) (start_at end_at : datetime).

(** [Recording] wraps any store: each method notes its call and then
    behaves as the wrapped one does. *)
Module Recording.

Definition t (R : Type) : Type := (R * list call)%type.

Definition record {R A : Type} (c : call) (m : M R A) : M (t R) A :=
  fun '(r, log) =>
    let '(x, r') := m r in
    (x, (r', log ++ [c])).

#[global] Instance repo {R : Type} `{TransactionRepository R}
    : TransactionRepository (t R) := {
  add tx := record (Call_add tx) (add tx);
  get i := record (Call_get i) (get i);
  list_by_user u := record (Call_list_by_user u) (list_by_user u);
  list_by_user_and_categories u cs :=
    record (Call_list_by_user_and_categories u cs) (list_by_user_and_categories u cs);
  list_by_user_and_period u s e :=
    record (Call_list_by_user_and_period u s e) (list_by_user_and_period u s e)
}.

End Recording.

(** ** Vocabulary of the statements *)

Definition is_expense (tx : Transaction.t) : bool :=
  TransactionTypeM.eqb (Transaction.type tx) expense.

Definition amount_of (tx : Transaction.t) : Decimal.t :=
  Money.amount (Transaction.money tx).

(** The amounts of the expense transactions of a list, in its order. *)
Definition expense_amounts (txs : list Transaction.t) : list Decimal.t :=
  map amount_of (filter is_expense txs).

(** The amounts of the expense transactions filed under category [c]. *)
Definition expense_amounts_in (c : option string) (txs : list Transaction.t)
    : list Decimal.t :=
  map amount_of
    (filter (fun tx => is_expense tx && opt_str_eqb (Transaction.category_id tx) c) txs).

Definition has_category (tx : Transaction.t) : bool :=
  match Transaction.category_id tx with
  | Some _ => true
  | None => false
  end.

(** The row [add] leaves in the table for [tx]: its columns, the amount at
    two fractional digits. *)
Definition row_of (tx : Transaction.t) : TransactionORM.t :=
  TransactionORM.mk (Transaction.id tx) (Transaction.user_id tx)
    (TransactionTypeM.value (Transaction.type tx))
    (Decimal.quantize 2 (amount_of tx)) (Money.currency (Transaction.money tx))
    (Transaction.occurred_at tx) (Transaction.created_at tx)
    (Transaction.category_id tx) (Transaction.account_id tx)
    (Transaction.description tx).


(** Some examples of values, for the concrete statements. *)
Definition dec (u : Z) (s : nat) : Decimal.t := Decimal.mk u s.
Definition at_utc (w : Z) : datetime := mk_datetime w (Some UTC).
Definition naive (w : Z) : datetime := mk_datetime w None.

Definition tx_of (id user : string) (ty : TransactionType) (a : Decimal.t)
    (cat : option string) (occurred created : Z) : Transaction.t :=
  Transaction.mk id user ty (Money.mk a "RUB") (at_utc occurred) (at_utc created)
    cat None None.

(** expense(food, 100), income(food, 20), expense(transport, 40) of user
    [u1], and an expense of [u2]. *)
Definition sample_txs : list Transaction.t :=
  [ tx_of "t1" "u1" expense (dec 100 0) (Some "food") 10 100;
    tx_of "t2" "u1" income (dec 20 0) (Some "food") 11 101;
    tx_of "t3" "u1" expense (dec 40 0) (Some "transport") 12 102;
    tx_of "t4" "u2" expense (dec 999 0) (Some "food") 13 103 ].

(** The SQL table after the four inserts. *)
Definition sample_table : table :=
  fold_left (fun rows tx => snd (SQLAlchemyTransactionRepository.add tx rows))
    sample_txs [].

(** The in-memory store after the same inserts and one expense without
    category. *)
Definition sample_items : InMemoryTransactionRepository.items :=
  fold_left (fun d tx => snd (InMemoryTransactionRepository.add tx d))
    (sample_txs ++ [tx_of "t5" "u1" expense (dec 750 2) None 14 104]) [].

(** What the SQL store lists for [u1] under food and transport: the newest
    first, the amounts at two fractional digits. *)
Definition sample_fetched : list Transaction.t :=
  [ tx_of "t3" "u1" expense (dec 4000 2) (Some "transport") 12 102;
    tx_of "t2" "u1" income (dec 2000 2) (Some "food") 11 101;
    tx_of "t1" "u1" expense (dec 10000 2) (Some "food") 10 100 ].

(** What the in-memory store lists for [u1] over a period that covers all
    of its transactions. *)
Definition sample_in_period : list Transaction.t :=
  [ tx_of "t1" "u1" expense (dec 100 0) (Some "food") 10 100;
    tx_of "t2" "u1" income (dec 20 0) (Some "food") 11 101;
    tx_of "t3" "u1" expense (dec 40 0) (Some "transport") 12 102;
    tx_of "t5" "u1" expense (dec 750 2) None 14 104 ].

(** An income of 10.50 RUB not yet in any store. *)
Definition tx_new : Transaction.t :=
  Transaction.mk "t7" "u1" income (Money.mk (dec 1050 2) "RUB")
    (at_utc 55) (at_utc 1000) (Some "salary") None (Some "pay").



(** ** [app/infrastructure/db.py]: the process-wide engine and session factory *)

Module Db.

(** What the module does to the world outside its two globals. *)
Inductive effect : Type :=
| Mkdir (path : string)            (* data_dir.mkdir(parents=True, exist_ok=True) *)
| Create_engine (url : string)     (* create_engine(database_url, future=True) *)
| Create_all (url : string)        (* Base.metadata.create_all(bind=_engine) *)
| Dispose (url : string).          (* _engine.dispose() *)

(** The globals [_engine] and [_session_factory], an engine and the factory
    bound to it being known by the URL of the engine, and the effects so
    far, oldest first. *)
Record t : Type := mk {
  _engine : option string;
  _session_factory : option string;
  effects : list effect
}.








(** Engines created, and engines disposed, in a list of effects. *)
Definition created (l : list effect) : nat :=
  List.length (filter (fun e => match e with Create_engine _ => true | _ => false end) l).



End Db.

(** ** [app/api/schemas/transactions.py] and [app/api/routes/transactions.py] *)

Module Api.

Record TransactionCreateRequest : Type := mk_request {
  req_type : string;                  (* Literal["expense", "income"] *)
  req_amount : Decimal.t;             (* Field(..., gt=0) *)
  req_currency : string;              (* Field(default="RUB", min_length=3, max_length=3) *)
  req_occurred_at : datetime;
  req_category_id : option string;
  req_account_id : option string;
  req_description : option string     (* Field(default=None, max_length=500) *)
}.

(** The constraints the request model declares on its fields. *)
Definition request_validated (request : TransactionCreateRequest) : bool :=
  (String.eqb (req_type request) "expense" || String.eqb (req_type request) "income")
  && (0 <? Decimal.unscaled (req_amount request))
  && (String.length (req_currency request) =? 3)%nat
  && match req_description request with
     | None => true
     | Some d => (String.length d <=? 500)%nat
     end.

Record TransactionResponse : Type := mk_response {
  id : string;
  user_id : string;
  type : string;
  amount : Decimal.t;
  currency : string;
  occurred_at : datetime;
  category_id : option string;
  account_id : option string;
  description : option string;
  created_at : datetime
}.

Record CategoryExpenseResponse : Type := mk_category_expense {
  ce_category_id : option string;
  ce_total_expense : Decimal.t
}.

Record TransactionsByCategoriesResponse : Type := mk_by_categories {
  bc_transactions : list TransactionResponse;
  bc_total_expense : Decimal.t;
  bc_expense_by_category : list CategoryExpenseResponse
}.

Record TransactionsPeriodStatsResponse : Type := mk_period_stats {
  ps_start_at : datetime;
  ps_end_at : datetime;
  ps_transactions : list TransactionResponse;
  ps_total_expense : Decimal.t;
  ps_expense_by_category : list CategoryExpenseResponse
}.

(** What a route function does: it returns a body, sent with the status of
    the route; or it raises [HTTPException]; or an exception it does not
    catch leaves it. *)
Inductive outcome (A : Type) : Type :=
| Response (status_code : nat) (body : A)
| HTTPException (status_code : nat) (detail : string)
| Uncaught (e : exn).
Arguments Response {A} status_code body.
Arguments HTTPException {A} status_code detail.
Arguments Uncaught {A} e.

Definition _to_response (tx : Transaction.t) : TransactionResponse :=
  mk_response (Transaction.id tx) (Transaction.user_id tx)
    (TransactionTypeM.value (Transaction.type tx))
    (Money.amount (Transaction.money tx)) (Money.currency (Transaction.money tx))
    (Transaction.occurred_at tx)
    (Transaction.category_id tx) (Transaction.account_id tx)
    (Transaction.description tx) (Transaction.created_at tx).

Section Routes.

Context {R : Type} {repo : TransactionRepository R}.

(** [POST /transactions], status 201 *)
Definition create_transaction (uuid : string) (clock : Z)
    (request : TransactionCreateRequest) (r : R) : outcome TransactionResponse * R :=
  let user_id := "demo-user" in
  match TransactionService.record_transaction uuid clock user_id
          (req_type request) (req_amount request) (req_currency request)
          (req_occurred_at request) (req_category_id request)
          (req_account_id request) (req_description request) r with
  | (Ok tx, r') => (Response 201 (_to_response tx), r')
  | (Raise (DomainValidationError msg), r') => (HTTPException 422 msg, r')
  | (Raise e, r') => (Uncaught e, r')
  end.

(** [GET /transactions] *)
Definition list_transactions (r : R) : outcome (list TransactionResponse) * R :=
  let user_id := "demo-user" in
  match TransactionService.list_transactions user_id r with
  | (Ok transactions, r') => (Response 200 (map _to_response transactions), r')
  | (Raise e, r') => (Uncaught e, r')
  end.

(** [[CategoryExpenseResponse(category_id=k, total_expense=v) for k, v in d.items()]] *)
Definition category_expenses {K : Type} (as_category : K -> option string)
    (d : dict K Decimal.t) : list CategoryExpenseResponse :=
  map (fun '(category_id, total) => mk_category_expense (as_category category_id) total) d.

(** [GET /transactions/by-categories] *)
Definition list_transactions_by_categories (category_ids : list string) (r : R)
    : outcome TransactionsByCategoriesResponse * R :=
  let user_id := "demo-user" in
  match TransactionService.get_transactions_by_categories user_id category_ids r with
  | (Ok (transactions, total_expense, expense_by_category), r') =>
      (Response 200
         (mk_by_categories (map _to_response transactions) total_expense
            (category_expenses Some expense_by_category)),
       r')
  | (Raise (DomainValidationError msg), r') => (HTTPException 422 msg, r')
  | (Raise e, r') => (Uncaught e, r')
  end.

(** [GET /transactions/by-period] *)
Definition list_transactions_by_period (start_at end_at : datetime) (r : R)
    : outcome TransactionsPeriodStatsResponse * R :=
  let user_id := "demo-user" in
  match TransactionService.get_transactions_for_period user_id start_at end_at r with
  | (Ok (transactions, total_expense, expense_by_category), r') =>
      (Response 200
         (mk_period_stats start_at end_at (map _to_response transactions) total_expense
            (category_expenses (fun k => k) expense_by_category)),
       r')
  | (Raise (DomainValidationError msg), r') => (HTTPException 422 msg, r')
  | (Raise e, r') => (Uncaught e, r')
  end.

(** [GET /transactions/{transaction_id}] *)
Definition get_transaction (transaction_id : string) (r : R)
    : outcome TransactionResponse * R :=
  let user_id := "demo-user" in
  match TransactionService.get_transaction user_id transaction_id r with
  | (Ok tx, r') => (Response 200 (_to_response tx), r')
  | (Raise (NotFoundError msg), r') => (HTTPException 404 msg, r')
  | (Raise e, r') => (Uncaught e, r')
  end.

End Routes.

End Api.

(** ** More vocabulary *)

(** A list of numbers that never goes up. *)
Fixpoint descending (l : list Z) : Prop :=
  match l with
  | [] => True
  | x :: l' => (forall y, In y l' -> y <= x) /\ descending l'
  end.

(** The primary keys of the table. *)
Definition ids (rows : table) : list string := map TransactionORM.id rows.


(** A schema-valid request with a naive timestamp, and one of an unknown
    type that the schema would have refused. *)
Definition sample_request : Api.TransactionCreateRequest :=
  Api.mk_request "income" (dec 1050 2) "RUB" (naive 55) (Some "salary") None (Some "pay").

(** A store of [demo-user]: two expenses and an income, and one expense of
    another user. *)
Definition demo_txs : list Transaction.t :=
  [ tx_of "d1" "demo-user" expense (dec 100 0) (Some "food") 10 100;
    tx_of "d2" "other" expense (dec 5 0) (Some "food") 11 101;
    tx_of "d3" "demo-user" income (dec 20 0) (Some "salary") 12 102;
    tx_of "d4" "demo-user" expense (dec 4050 2) (Some "transport") 13 103 ].

Definition demo_table : table :=
  fold_left (fun rows tx => snd (SQLAlchemyTransactionRepository.add tx rows))
    demo_txs [].


(** * Properties *)

(** ** Decimal arithmetic *)

Section DecimalFacts.


Lemma pow10_add (n m : nat) :
  Decimal.pow10 (n + m) = Decimal.pow10 n * Decimal.pow10 m.
Proof.
  unfold Decimal.pow10. rewrite Nat2Z.inj_add. apply Z.pow_add_r; lia.
Qed.

(** The sign of a decimal is the sign of its unscaled integer. *)
Lemma leb_zero_iff (a : Decimal.t) :
  Decimal.leb a Decimal.zero = true <-> Decimal.unscaled a <= 0.
Proof.
  unfold Decimal.leb, Decimal.compare, Decimal.zero; simpl.
  change (Decimal.pow10 0) with 1. rewrite Z.mul_1_r.
  destruct (Z.compare_spec (Decimal.unscaled a) 0); split; intros; try lia; try discriminate; reflexivity.
Qed.

Lemma leb_zero_false_iff (a : Decimal.t) :
  Decimal.leb a Decimal.zero = false <-> 0 < Decimal.unscaled a.
Proof.
  pose proof (leb_zero_iff a) as H.
  destruct (Decimal.leb a Decimal.zero); split; intros Hx;
    try discriminate; try reflexivity.
  - destruct H as [H _]. specialize (H eq_refl). lia.
  - destruct (Z_lt_le_dec 0 (Decimal.unscaled a)) as [Hlt | Hle]; [exact Hlt|].
    apply H in Hle. discriminate.
Qed.

Lemma eqb_refl (a : Decimal.t) : Decimal.eqb a a = true.
Proof. unfold Decimal.eqb, Decimal.compare. now rewrite Z.compare_refl. Qed.



End DecimalFacts.

(** ** [Money] *)

Lemma money_init_nonpositive (a : Decimal.t) (c : string) :
  Decimal.unscaled a <= 0 ->
  Money.init a c = Raise (DomainValidationError "Amount must be greater than 0").
Proof.
  intros Ha. unfold Money.init, Money.post_init; simpl.
  apply leb_zero_iff in Ha. now rewrite Ha.
Qed.

Lemma money_init_ok (a : Decimal.t) (c : string) :
  0 < Decimal.unscaled a ->
  String.length c = 3%nat ->
  Money.init a c = Ok (Money.mk a c).
Proof.
  intros Ha Hc. unfold Money.init, Money.post_init; simpl.
  apply leb_zero_false_iff in Ha. rewrite Ha.
  rewrite Hc. simpl.
  destruct c; [discriminate|]. reflexivity.
Qed.


(** C9.  [Money(amount, currency)] raises the validation error for every
    amount that is zero or negative and for every currency whose length is
    not 3; it returns the value for every positive amount with a currency of
    3 characters; and a construction that fails leaves any store as it was. *)
Theorem money_init_validation :
  (forall (a : Decimal.t) (c : string),
      Decimal.unscaled a <= 0 ->
      Money.init a c = Raise (DomainValidationError "Amount must be greater than 0"))
  /\ (forall (a : Decimal.t) (c : string),
      String.length c <> 3%nat ->
      is_validation_error (Money.init a c) = true)
  /\ (forall (a : Decimal.t) (c : string),
      0 < Decimal.unscaled a ->
      String.length c = 3%nat ->
      Money.init a c = Ok (Money.mk a c))
  /\ (forall (R : Type) (r : R) (a : Decimal.t) (c : string),
      snd (lift (Money.init a c) r) = r).
Proof.
  split; [|split; [|split]].
  - exact money_init_nonpositive.
  - intros a c Hc. unfold Money.init, Money.post_init; simpl.
    destruct (Decimal.leb a Decimal.zero); [reflexivity|].
    apply Nat.eqb_neq in Hc. rewrite Hc. simpl.
    rewrite orb_true_r. reflexivity.
  - exact money_init_ok.
  - intros. reflexivity.
Qed.

Lemma money_init_validation_witness :
  Money.init (dec 0 0) "RUB" = Raise (DomainValidationError "Amount must be greater than 0")
  /\ is_validation_error (Money.init (dec 1 0) "RU") = true
  /\ Money.init (dec 1050 2) "RUB" = Ok (Money.mk (dec 1050 2) "RUB").
Proof.
  destruct money_init_validation as (Hneg & Hcur & Hok & _).
  split; [|split].
  - apply Hneg. simpl. lia.
  - apply Hcur. simpl. lia.
  - apply Hok; simpl; [lia | reflexivity].
Defined.

(** ** Dictionaries *)

Section DictFacts.

Context {K : Type} {HK : KeyEq K}.
Hypothesis key_eqb_eq : forall x y : K, key_eqb x y = true <-> x = y.

Lemma key_eqb_refl (x : K) : key_eqb x x = true.
Proof. now apply key_eqb_eq. Qed.

Lemma key_eqb_neq (x y : K) : x <> y -> key_eqb x y = false.
Proof.
  intros Hne. destruct (key_eqb x y) eqn:E; [|reflexivity].
  apply key_eqb_eq in E. contradiction.
Qed.

Lemma key_eq_dec (x y : K) : {x = y} + {x <> y}.
Proof.
  destruct (key_eqb x y) eqn:E.
  - left. now apply key_eqb_eq.
  - right. intros ->. rewrite key_eqb_refl in E. discriminate.
Qed.

Lemma mem_In (k : K) (l : list K) : mem k l = true <-> In k l.
Proof.
  unfold mem. rewrite existsb_exists. split.
  - intros (x & Hin & Hx). apply key_eqb_eq in Hx. now subst.
  - intros Hin. exists k. split; [assumption | apply key_eqb_refl].
Qed.

Lemma mem_false (k : K) (l : list K) : mem k l = false <-> ~ In k l.
Proof.
  rewrite <- mem_In. destruct (mem k l); split; intros; try discriminate;
    try reflexivity; try congruence.
Qed.

Section Values.

Context {V : Type}.
Implicit Types (d : dict K V) (k : K) (v : V).

Lemma dict_get_In k d : dict_get k d <> None <-> In k (keys d).
Proof.
  induction d as [|[k' v'] d IH]; simpl.
  - split; [congruence | contradiction].
  - destruct (key_eqb k k') eqn:E.
    + apply key_eqb_eq in E. subst. split; [auto | congruence].
    + rewrite IH. split; [auto|]. intros [-> |]; [|assumption].
      rewrite key_eqb_refl in E. discriminate.
Qed.

Lemma dict_get_notin k d : ~ In k (keys d) -> dict_get k d = None.
Proof.
  intros Hn. destruct (dict_get k d) eqn:E; [|reflexivity].
  exfalso. apply Hn, dict_get_In. congruence.
Qed.

Lemma dict_get_set_same k v d : dict_get k (dict_set k v d) = Some v.
Proof.
  induction d as [|[k' v'] d IH]; simpl.
  - now rewrite key_eqb_refl.
  - destruct (key_eqb k k') eqn:E; simpl; rewrite E; auto.
Qed.

Lemma dict_get_set_other k k' v d :
  k <> k' -> dict_get k (dict_set k' v d) = dict_get k d.
Proof.
  intros Hne. induction d as [|[k2 v2] d IH]; simpl.
  - now rewrite key_eqb_neq.
  - destruct (key_eqb k' k2) eqn:E; simpl.
    + apply key_eqb_eq in E. subst k2. now rewrite key_eqb_neq.
    + now rewrite IH.
Qed.

Lemma dict_get_default_set_same k v dflt d :
  dict_get_default k dflt (dict_set k v d) = v.
Proof. unfold dict_get_default. now rewrite dict_get_set_same. Qed.

Lemma dict_get_default_set_other k k' v dflt d :
  k <> k' ->
  dict_get_default k dflt (dict_set k' v d) = dict_get_default k dflt d.
Proof. intros. unfold dict_get_default. now rewrite dict_get_set_other. Qed.

(** Writing under a key already there moves nothing. *)
Lemma keys_dict_set_in k v d : In k (keys d) -> keys (dict_set k v d) = keys d.
Proof.
  induction d as [|[k' v'] d IH]; simpl; [contradiction|].
  intros Hin. destruct (key_eqb k k') eqn:E; simpl; [reflexivity|].
  f_equal. apply IH. destruct Hin as [-> | Hin]; [|assumption].
  rewrite key_eqb_refl in E. discriminate.
Qed.

(** Writing under a new key puts it last. *)
Lemma keys_dict_set_notin k v d :
  ~ In k (keys d) -> keys (dict_set k v d) = keys d ++ [k].
Proof.
  induction d as [|[k' v'] d IH]; simpl; [reflexivity|].
  intros Hn. destruct (key_eqb k k') eqn:E; simpl.
  - apply key_eqb_eq in E. subst. exfalso. auto.
  - f_equal. apply IH. auto.
Qed.

Lemma keys_dict_set k v d :
  keys (dict_set k v d) = if mem k (keys d) then keys d else keys d ++ [k].
Proof.
  destruct (mem k (keys d)) eqn:E.
  - apply keys_dict_set_in. now apply mem_In.
  - apply keys_dict_set_notin. now apply mem_false.
Qed.

Lemma In_keys_dict_set k k' v d :
  In k (keys (dict_set k' v d)) <-> k = k' \/ In k (keys d).
Proof.
  rewrite keys_dict_set. destruct (mem k' (keys d)) eqn:E.
  - apply mem_In in E. split; [auto|]. intros [-> |]; assumption.
  - rewrite in_app_iff. simpl. intuition congruence.
Qed.

Lemma NoDup_keys_dict_set k v d :
  NoDup (keys d) -> NoDup (keys (dict_set k v d)).
Proof.
  intros Hnd. rewrite keys_dict_set. destruct (mem k (keys d)) eqn:E; [assumption|].
  apply mem_false in E.
  apply NoDup_app; [assumption | repeat constructor; auto |].
  intros x Hx [<- | []]. contradiction.
Qed.

End Values.

(** *** [dict.fromkeys] and first-seen order *)

Lemma filter_filter {A : Type} (p q : A -> bool) (l : list A) :
  filter p (filter q l) = filter (fun x => q x && p x) l.
Proof.
  induction l as [|x l IH]; simpl; [reflexivity|].
  destruct (q x); simpl; [destruct (p x)|]; now rewrite IH.
Qed.

Lemma fold_set_keys {V : Type} (v : V) (l : list K) (d : dict K V) :
  keys (fold_left (fun d k => dict_set k v d) l d)
  = keys d ++ filter (fun k => negb (mem k (keys d))) (dedup_first_seen l).
Proof.
  revert d. induction l as [|x l IH]; intros d; simpl.
  - now rewrite app_nil_r.
  - rewrite IH, keys_dict_set. rewrite filter_filter.
    destruct (mem x (keys d)) eqn:E; simpl.
    + f_equal. apply filter_ext_in. intros y _.
      destruct (key_eqb y x) eqn:Eyx; simpl; [|reflexivity].
      apply key_eqb_eq in Eyx. subst. now rewrite E.
    + rewrite <- app_assoc. simpl. f_equal. f_equal.
      apply filter_ext_in. intros y _.
      unfold mem at 1. rewrite existsb_app. simpl. rewrite orb_false_r.
      fold (mem y (keys d)).
      destruct (key_eqb y x), (mem y (keys d)); reflexivity.
Qed.

(** [list(dict.fromkeys(l))] is [l] without its repeats, in first-seen
    order. *)
Lemma keys_fromkeys (l : list K) : keys (fromkeys l) = dedup_first_seen l.
Proof.
  unfold fromkeys. rewrite fold_set_keys. simpl.
  induction (dedup_first_seen l) as [|x l' IH]; simpl; [reflexivity|].
  now rewrite IH.
Qed.

Lemma In_dedup_first_seen (x : K) (l : list K) :
  In x (dedup_first_seen l) <-> In x l.
Proof.
  induction l as [|y l IH]; simpl; [tauto|].
  rewrite filter_In, IH. split.
  - intros [-> | [Hin _]]; auto.
  - intros [-> | Hin]; [auto|].
    destruct (key_eq_dec y x) as [-> | Hne]; [auto|].
    right. split; [assumption|].
    rewrite key_eqb_neq; [reflexivity | congruence].
Qed.

Lemma NoDup_dedup_first_seen (l : list K) : NoDup (dedup_first_seen l).
Proof.
  induction l as [|y l IH]; simpl; constructor.
  - rewrite filter_In. intros [_ H]. rewrite key_eqb_refl in H. discriminate.
  - now apply NoDup_filter.
Qed.

Lemma dedup_first_seen_nil (l : list K) : dedup_first_seen l = [] <-> l = [].
Proof. destruct l; simpl; split; congruence. Qed.

(** A list without repeats is its own deduplication. *)
Lemma dedup_first_seen_NoDup (l : list K) : NoDup l -> dedup_first_seen l = l.
Proof.
  induction 1 as [|x l Hx Hnd IH]; simpl; [reflexivity|].
  rewrite IH. f_equal.
  apply forallb_filter_id. apply forallb_forall. intros y Hy.
  rewrite key_eqb_neq; [reflexivity | congruence].
Qed.

Lemma keys_dict_comprehension {V : Type} (l : list K) (v : V) :
  keys (dict_comprehension l v) = dedup_first_seen l.
Proof.
  unfold dict_comprehension. rewrite fold_set_keys. simpl.
  induction (dedup_first_seen l) as [|x l' IH]; simpl; [reflexivity|].
  now rewrite IH.
Qed.

Lemma fold_set_get_default {V : Type} (v : V) (k : K) (l : list K) (d : dict K V) :
  dict_get_default k v d = v ->
  dict_get_default k v (fold_left (fun d k => dict_set k v d) l d) = v.
Proof.
  revert d. induction l as [|x l IH]; intros d Hd; simpl; [assumption|].
  apply IH. destruct (key_eq_dec k x) as [-> | Hne].
  - apply dict_get_default_set_same.
  - now rewrite dict_get_default_set_other.
Qed.

(** Every entry of [{k: v for k in l}] holds [v]. *)
Lemma dict_comprehension_get_default {V : Type} (l : list K) (v : V) (k : K) :
  dict_get_default k v (dict_comprehension l v) = v.
Proof. apply fold_set_get_default. reflexivity. Qed.

End DictFacts.

Lemma string_key_eqb_eq (x y : string) : key_eqb x y = true <-> x = y.
Proof. apply String.eqb_eq. Qed.

Lemma opt_str_eqb_eq (x y : option string) : opt_str_eqb x y = true <-> x = y.
Proof.
  destruct x as [x|], y as [y|]; simpl; try (split; congruence).
  rewrite String.eqb_eq. split; congruence.
Qed.

Lemma opt_string_key_eqb_eq (x y : option string) : key_eqb x y = true <-> x = y.
Proof. apply opt_str_eqb_eq. Qed.

Lemma is_expense_iff (tx : Transaction.t) :
  is_expense tx = true <-> Transaction.type tx = expense.
Proof. unfold is_expense. destruct (Transaction.type tx); simpl; split; congruence. Qed.

(** ** The loops of the aggregation service *)

Section Loops.

Import TransactionService.

(** The total of either loop is the running sum of the expense amounts. *)
Lemma by_categories_total (txs : list Transaction.t) (t : Decimal.t)
    (d : dict string Decimal.t) :
  fst (fold_left by_categories_step txs (t, d))
  = fold_left Decimal.add (expense_amounts txs) t.
Proof.
  revert t d. induction txs as [|tx txs IH]; intros t d; [reflexivity|].
  unfold expense_amounts, is_expense in *. simpl.
  destruct (Transaction.type tx); simpl.
  - destruct (Transaction.category_id tx); apply IH.
  - apply IH.
Qed.

Lemma for_period_total (txs : list Transaction.t) (t : Decimal.t)
    (d : dict (option string) Decimal.t) :
  fst (fold_left for_period_step txs (t, d))
  = fold_left Decimal.add (expense_amounts txs) t.
Proof.
  revert t d. induction txs as [|tx txs IH]; intros t d; [reflexivity|].
  unfold expense_amounts, is_expense in *. simpl.
  destruct (Transaction.type tx); simpl; apply IH.
Qed.

(** The bucket of a category grows by the expenses filed under it, and by
    nothing else. *)
Lemma by_categories_bucket (c : string) (txs : list Transaction.t) (t : Decimal.t)
    (d : dict string Decimal.t) :
  dict_get_default c Decimal.zero (snd (fold_left by_categories_step txs (t, d)))
  = fold_left Decimal.add (expense_amounts_in (Some c) txs)
      (dict_get_default c Decimal.zero d).
Proof.
  revert t d. induction txs as [|tx txs IH]; intros t d; [reflexivity|].
  unfold expense_amounts_in, is_expense in *. simpl.
  destruct (Transaction.type tx); simpl; [|apply IH].
  destruct (Transaction.category_id tx) as [c'|]; simpl; [|apply IH].
  rewrite IH. destruct (String.eqb c' c) eqn:E; simpl.
  - apply String.eqb_eq in E. subst c'.
    now rewrite (dict_get_default_set_same string_key_eqb_eq).
  - apply String.eqb_neq in E.
    rewrite (dict_get_default_set_other string_key_eqb_eq); [reflexivity | congruence].
Qed.

Lemma for_period_bucket (c : option string) (txs : list Transaction.t) (t : Decimal.t)
    (d : dict (option string) Decimal.t) :
  dict_get_default c Decimal.zero (snd (fold_left for_period_step txs (t, d)))
  = fold_left Decimal.add (expense_amounts_in c txs)
      (dict_get_default c Decimal.zero d).
Proof.
  revert t d. induction txs as [|tx txs IH]; intros t d; [reflexivity|].
  unfold expense_amounts_in, is_expense in *. simpl.
  destruct (Transaction.type tx); simpl; [|apply IH].
  rewrite IH. destruct (opt_str_eqb (Transaction.category_id tx) c) eqn:E; simpl.
  - apply opt_str_eqb_eq in E. subst c.
    now rewrite (dict_get_default_set_same opt_string_key_eqb_eq).
  - rewrite (dict_get_default_set_other opt_string_key_eqb_eq); [reflexivity|].
    intros ->. rewrite (proj2 (opt_str_eqb_eq _ _) eq_refl) in E. discriminate.
Qed.

(** Transactions without category leave the buckets of the by-categories
    loop alone. *)
Lemma by_categories_null_category (txs : list Transaction.t) (t t' : Decimal.t)
    (d : dict string Decimal.t) :
  snd (fold_left by_categories_step txs (t, d))
  = snd (fold_left by_categories_step (filter has_category txs) (t', d)).
Proof.
  revert t t' d. induction txs as [|tx txs IH]; intros t t' d; [reflexivity|].
  unfold has_category in *. simpl.
  destruct (Transaction.category_id tx) as [c|] eqn:Ec; simpl.
  - destruct (Transaction.type tx); rewrite ?Ec; apply IH.
  - destruct (Transaction.type tx); apply IH.
Qed.

(** The keys of the by-categories loop: those at the start, in place, and
    then the categories met that were not among them. *)
Lemma by_categories_keys_prefix (txs : list Transaction.t) (t : Decimal.t)
    (d : dict string Decimal.t) :
  exists extra,
    keys (snd (fold_left by_categories_step txs (t, d))) = keys d ++ extra.
Proof.
  revert t d. induction txs as [|tx txs IH]; intros t d; simpl.
  - exists []. now rewrite app_nil_r.
  - destruct (Transaction.type tx); [|apply IH].
    destruct (Transaction.category_id tx) as [c|]; [|apply IH].
    match goal with
    | |- context [fold_left _ txs (?t1, ?d1)] => destruct (IH t1 d1) as [extra Hx]
    end.
    rewrite Hx, (keys_dict_set string_key_eqb_eq).
    destruct (mem c (keys d)).
    + now exists extra.
    + exists (c :: extra). now rewrite <- app_assoc.
Qed.

(** When every expense met is filed under a key of the mapping, the loop
    adds no key. *)
Lemma by_categories_keys_closed (txs : list Transaction.t) (t : Decimal.t)
    (d : dict string Decimal.t) :
  (forall tx c, In tx txs -> Transaction.category_id tx = Some c -> In c (keys d)) ->
  keys (snd (fold_left by_categories_step txs (t, d))) = keys d.
Proof.
  revert t d. induction txs as [|tx txs IH]; intros t d Hin; [reflexivity|].
  simpl. destruct (Transaction.type tx).
  - destruct (Transaction.category_id tx) as [c|] eqn:Ec.
    + assert (Hc : In c (keys d)) by (apply (Hin tx); simpl; auto).
      rewrite IH.
      * now apply (keys_dict_set_in string_key_eqb_eq).
      * intros tx' c' Htx' Hc'.
        rewrite (keys_dict_set_in string_key_eqb_eq) by assumption.
        apply (Hin tx'); simpl; auto.
    + apply IH. intros tx' c' Htx' Hc'. apply (Hin tx'); simpl; auto.
  - apply IH. intros tx' c' Htx' Hc'. apply (Hin tx'); simpl; auto.
Qed.

Lemma by_categories_NoDup (txs : list Transaction.t) (t : Decimal.t)
    (d : dict string Decimal.t) :
  NoDup (keys d) ->
  NoDup (keys (snd (fold_left by_categories_step txs (t, d)))).
Proof.
  revert t d. induction txs as [|tx txs IH]; intros t d Hnd; [assumption|].
  simpl. destruct (Transaction.type tx); [|now apply IH].
  destruct (Transaction.category_id tx) as [c|]; [|now apply IH].
  apply IH. now apply (NoDup_keys_dict_set string_key_eqb_eq).
Qed.

(** The keys of the for-period loop: those at the start and the categories
    of the expenses met. *)
Lemma for_period_keys (k : option string) (txs : list Transaction.t) (t : Decimal.t)
    (d : dict (option string) Decimal.t) :
  In k (keys (snd (fold_left for_period_step txs (t, d))))
  <-> In k (keys d)
      \/ exists tx, In tx txs /\ Transaction.type tx = expense
                    /\ Transaction.category_id tx = k.
Proof.
  revert t d. induction txs as [|tx txs IH]; intros t d; simpl.
  - split; [auto|]. intros [H | (tx & [] & _)]. assumption.
  - destruct (Transaction.type tx) eqn:Ety; rewrite IH.
    + rewrite (In_keys_dict_set opt_string_key_eqb_eq). split.
      * intros [[-> | Hin] | (tx' & Hin & Hty & Hc)]; eauto 7.
      * intros [Hin | (tx' & [<- | Hin] & Hty & Hc)]; eauto 7.
    + split.
      * intros [Hin | (tx' & Hin & Hty & Hc)]; eauto 7.
      * intros [Hin | (tx' & [<- | Hin] & Hty & Hc)]; eauto 7. congruence.
Qed.

Lemma for_period_NoDup (txs : list Transaction.t) (t : Decimal.t)
    (d : dict (option string) Decimal.t) :
  NoDup (keys d) ->
  NoDup (keys (snd (fold_left for_period_step txs (t, d)))).
Proof.
  revert t d. induction txs as [|tx txs IH]; intros t d Hnd; [assumption|].
  simpl. destruct (Transaction.type tx); [|now apply IH].
  apply IH. now apply (NoDup_keys_dict_set opt_string_key_eqb_eq).
Qed.

(** A key of a mapping has the value [get] with a default finds. *)
Lemma dict_get_of_default {K : Type} `{KeyEq K}
    (key_eqb_eq : forall x y : K, key_eqb x y = true <-> x = y)
    (k : K) (d : dict K Decimal.t) :
  In k (keys d) -> dict_get k d = Some (dict_get_default k Decimal.zero d).
Proof.
  intros Hin. apply (dict_get_In key_eqb_eq) in Hin.
  unfold dict_get_default. destruct (dict_get k d); congruence.
Qed.

End Loops.

(** ** The aggregation service over any store *)

Lemma normalize_aware (d : datetime) :
  exists off, tzinfo (TransactionService._normalize_datetime d) = Some off.
Proof.
  unfold TransactionService._normalize_datetime.
  destruct (tzinfo d) eqn:E; simpl; eauto.
Qed.

Lemma normalize_instant (d : datetime) :
  utc_instant (TransactionService._normalize_datetime d) = utc_instant d.
Proof.
  unfold TransactionService._normalize_datetime, utc_instant.
  destruct (tzinfo d) eqn:E; simpl; [now rewrite E | reflexivity].
Qed.

(** After the normalisation the comparison of the two bounds never raises:
    it is the comparison of their instants. *)
Lemma normalized_gt (s e : datetime) :
  datetime_gt (TransactionService._normalize_datetime s)
              (TransactionService._normalize_datetime e)
  = Ok (utc_instant e <? utc_instant s).
Proof.
  rewrite <- (normalize_instant s), <- (normalize_instant e).
  destruct (normalize_aware s) as [os Hs], (normalize_aware e) as [oe He].
  unfold datetime_gt, datetime_compare, utc_instant. rewrite Hs, He.
  rewrite Z.ltb_antisym, Z.leb_compare.
  destruct (_ ?= _); reflexivity.
Qed.

(** The call, once past its check, is the store's listing followed by the
    loop. *)
Lemma by_categories_run {R : Type} {repo : TransactionRepository R}
    (user_id : string) (category_ids : list string) (r r' : R)
    (txs : list Transaction.t) :
  dedup_first_seen category_ids <> [] ->
  list_by_user_and_categories user_id (dedup_first_seen category_ids) r = (Ok txs, r') ->
  let final :=
    fold_left TransactionService.by_categories_step txs
      (Decimal.zero, dict_comprehension (dedup_first_seen category_ids) Decimal.zero) in
  TransactionService.get_transactions_by_categories user_id category_ids r
  = (Ok (txs, fst final, snd final), r').
Proof.
  intros Hne Hlist final. subst final.
  unfold TransactionService.get_transactions_by_categories.
  rewrite (keys_fromkeys string_key_eqb_eq).
  destruct (dedup_first_seen category_ids) as [|c0 cs] eqn:Ecs; [congruence|].
  unfold bind. rewrite Hlist.
  destruct (fold_left _ txs _) as [total by_cat]. reflexivity.
Qed.

Lemma by_categories_bucket_value (category_ids : list string)
    (txs : list Transaction.t) (c : string) :
  let final :=
    fold_left TransactionService.by_categories_step txs
      (Decimal.zero, dict_comprehension (dedup_first_seen category_ids) Decimal.zero) in
  In c (keys (snd final)) ->
  dict_get c (snd final) = Some (Decimal.sum (expense_amounts_in (Some c) txs)).
Proof.
  intros final Hc. subst final.
  rewrite (dict_get_of_default string_key_eqb_eq) by assumption.
  f_equal. rewrite by_categories_bucket.
  now rewrite (dict_comprehension_get_default string_key_eqb_eq).
Qed.

(** C1.  Whatever the store, when the deduplicated list of categories is
    not empty and the store returns [txs], the call returns [txs] with, as
    total, the sum of the amounts of the expense transactions of [txs]:
    income transactions are left out, and an expense counts whether it has a
    category or not.  Each bucket of the mapping holds the sum of the
    expenses filed under its own category, so an expense without category is
    in no bucket. *)
Theorem by_categories_total_expense {R : Type} {repo : TransactionRepository R}
    (user_id : string) (category_ids : list string) (r r' : R)
    (txs : list Transaction.t) :
  dedup_first_seen category_ids <> [] ->
  list_by_user_and_categories user_id (dedup_first_seen category_ids) r = (Ok txs, r') ->
  exists by_cat,
    TransactionService.get_transactions_by_categories user_id category_ids r
    = (Ok (txs, Decimal.sum (expense_amounts txs), by_cat), r')
    /\ (forall tx, In tx txs -> Transaction.type tx = expense ->
          In (amount_of tx) (expense_amounts txs))
    /\ (forall a, In a (expense_amounts txs) ->
          exists tx, In tx txs /\ Transaction.type tx = expense /\ amount_of tx = a)
    /\ (forall c, In c (keys by_cat) ->
          dict_get c by_cat = Some (Decimal.sum (expense_amounts_in (Some c) txs))).
Proof.
  intros Hne Hlist.
  rewrite (by_categories_run user_id category_ids r r' txs Hne Hlist).
  eexists. split; [|split; [|split]].
  - rewrite by_categories_total. reflexivity.
  - intros tx Hin Hty. unfold expense_amounts.
    apply in_map, filter_In. split; [assumption | now apply is_expense_iff].
  - intros a Ha. unfold expense_amounts in Ha.
    apply in_map_iff in Ha. destruct Ha as (tx & Ha & Hin).
    apply filter_In in Hin. destruct Hin as [Hin Hty].
    exists tx. repeat split; [assumption | now apply is_expense_iff | assumption].
  - intros c Hc. now apply by_categories_bucket_value.
Qed.

(** C5.  Whatever the store, for a period whose start is not after its end,
    when the store returns [txs] the mapping of the call has a key exactly
    for the categories (the missing category [None] among them) of the
    expense transactions of [txs], each once, with the sum of those expenses
    as value. *)
Theorem for_period_expense_by_category {R : Type} {repo : TransactionRepository R}
    (user_id : string) (start_at end_at : datetime) (r r' : R)
    (txs : list Transaction.t) :
  utc_instant start_at <= utc_instant end_at ->
  list_by_user_and_period user_id
    (TransactionService._normalize_datetime start_at)
    (TransactionService._normalize_datetime end_at) r = (Ok txs, r') ->
  exists by_cat,
    TransactionService.get_transactions_for_period user_id start_at end_at r
    = (Ok (txs, Decimal.sum (expense_amounts txs), by_cat), r')
    /\ (forall k, In k (keys by_cat) <->
          exists tx, In tx txs /\ Transaction.type tx = expense
                     /\ Transaction.category_id tx = k)
    /\ NoDup (keys by_cat)
    /\ (forall k, In k (keys by_cat) ->
          dict_get k by_cat = Some (Decimal.sum (expense_amounts_in k txs))).
Proof.
  intros Hle Hlist.
  unfold TransactionService.get_transactions_for_period.
  unfold bind at 1. unfold lift. rewrite normalized_gt.
  replace (utc_instant end_at <? utc_instant start_at) with false
    by (symmetry; apply Z.ltb_ge; assumption).
  unfold bind. rewrite Hlist.
  destruct (fold_left _ txs _) as [total by_cat] eqn:Efold.
  exists by_cat. unfold ret. split; [|split; [|split]].
  - replace total with (Decimal.sum (expense_amounts txs)); [reflexivity|].
    change total with (fst (total, by_cat)). rewrite <- Efold.
    symmetry. apply for_period_total.
  - intros k. change by_cat with (snd (total, by_cat)). rewrite <- Efold.
    rewrite for_period_keys. simpl. tauto.
  - change by_cat with (snd (total, by_cat)). rewrite <- Efold.
    apply for_period_NoDup. constructor.
  - intros k Hk.
    rewrite (dict_get_of_default opt_string_key_eqb_eq) by assumption.
    f_equal. change by_cat with (snd (total, by_cat)). rewrite <- Efold.
    now rewrite for_period_bucket.
Qed.

(** C6.  With naive bounds read as UTC: a start after the end raises the
    validation error and leaves the store alone; a start equal to the end
    passes the check, and the call then succeeds or fails as the store's
    listing does. *)
Theorem for_period_range_validation {R : Type} {repo : TransactionRepository R}
    (user_id : string) (start_at end_at : datetime) (r : R) :
  (utc_instant end_at < utc_instant start_at ->
     TransactionService.get_transactions_for_period user_id start_at end_at r
     = (Raise (DomainValidationError "start_at must be before or equal to end_at"), r))
  /\ (utc_instant start_at = utc_instant end_at ->
      (forall txs r',
          list_by_user_and_period user_id
            (TransactionService._normalize_datetime start_at)
            (TransactionService._normalize_datetime end_at) r = (Ok txs, r') ->
          exists total by_cat,
            TransactionService.get_transactions_for_period user_id start_at end_at r
            = (Ok (txs, total, by_cat), r'))
      /\ (forall e r',
          TransactionService.get_transactions_for_period user_id start_at end_at r
          = (Raise e, r') ->
          list_by_user_and_period user_id
            (TransactionService._normalize_datetime start_at)
            (TransactionService._normalize_datetime end_at) r = (Raise e, r'))).
Proof.
  unfold TransactionService.get_transactions_for_period.
  unfold bind at 1 3 5. unfold lift. rewrite normalized_gt. split.
  - intros Hgt. apply Z.ltb_lt in Hgt. rewrite Hgt. reflexivity.
  - intros Heq. rewrite Heq, Z.ltb_irrefl. split.
    + intros txs r' Hlist. unfold bind. rewrite Hlist.
      destruct (fold_left _ txs _) as [total by_cat]. now exists total, by_cat.
    + intros e r'. unfold bind.
      destruct (list_by_user_and_period _ _ _ r) as [[txs|e'] r''].
      * destruct (fold_left _ txs _) as [total by_cat]. unfold ret. discriminate.
      * intros Hres. inversion Hres. reflexivity.
Qed.

(** C7.  A list of categories whose deduplication is empty is the empty
    list, and for it the call raises the validation error without having
    called the store: the store is as before, whatever store it is, and a
    store that records its calls has recorded none. *)
Theorem by_categories_empty_rejected {R : Type} {repo : TransactionRepository R}
    (user_id : string) (category_ids : list string) :
  dedup_first_seen category_ids = [] ->
  category_ids = []
  /\ (forall r : R,
       TransactionService.get_transactions_by_categories user_id category_ids r
       = (Raise (DomainValidationError "category_ids must not be empty"), r))
  /\ (forall (r : R) (log : list call),
       TransactionService.get_transactions_by_categories (R := Recording.t R)
         user_id category_ids (r, log)
       = (Raise (DomainValidationError "category_ids must not be empty"), (r, log))).
Proof.
  intros Hempty. split; [|split].
  - now apply dedup_first_seen_nil.
  - intros r. unfold TransactionService.get_transactions_by_categories.
    rewrite (keys_fromkeys string_key_eqb_eq), Hempty. reflexivity.
  - intros r log. unfold TransactionService.get_transactions_by_categories.
    rewrite (keys_fromkeys string_key_eqb_eq), Hempty. reflexivity.
Qed.

(** C4.  Whatever the store and its state: when the store has no
    transaction under the id, and when it has one whose user is another, the
    call raises [NotFoundError] with one and the same message, so that the
    two outcomes are the same value; when it has one of the requesting user,
    the call returns it. *)
Theorem get_transaction_ownership {R : Type} {repo : TransactionRepository R}
    (user_id transaction_id : string) :
  (forall r r' : R,
      get transaction_id r = (Ok None, r') ->
      TransactionService.get_transaction user_id transaction_id r
      = (Raise (NotFoundError "Transaction not found"), r'))
  /\ (forall (r r' : R) (tx : Transaction.t),
      get transaction_id r = (Ok (Some tx), r') ->
      Transaction.user_id tx <> user_id ->
      TransactionService.get_transaction user_id transaction_id r
      = (Raise (NotFoundError "Transaction not found"), r'))
  /\ (forall (r1 r1' r2 r2' : R) (tx : Transaction.t),
      get transaction_id r1 = (Ok None, r1') ->
      get transaction_id r2 = (Ok (Some tx), r2') ->
      Transaction.user_id tx <> user_id ->
      fst (TransactionService.get_transaction user_id transaction_id r1)
      = fst (TransactionService.get_transaction user_id transaction_id r2))
  /\ (forall (r r' : R) (tx : Transaction.t),
      get transaction_id r = (Ok (Some tx), r') ->
      Transaction.user_id tx = user_id ->
      TransactionService.get_transaction user_id transaction_id r = (Ok tx, r')).
Proof.
  assert (Habsent : forall r r' : R,
      get transaction_id r = (Ok None, r') ->
      TransactionService.get_transaction user_id transaction_id r
      = (Raise (NotFoundError "Transaction not found"), r')).
  { intros r r' Hget. unfold TransactionService.get_transaction, bind.
    now rewrite Hget. }
  assert (Hother : forall (r r' : R) (tx : Transaction.t),
      get transaction_id r = (Ok (Some tx), r') ->
      Transaction.user_id tx <> user_id ->
      TransactionService.get_transaction user_id transaction_id r
      = (Raise (NotFoundError "Transaction not found"), r')).
  { intros r r' tx Hget Hne. unfold TransactionService.get_transaction, bind.
    rewrite Hget. apply String.eqb_neq in Hne. now rewrite Hne. }
  split; [exact Habsent | split; [exact Hother | split]].
  - intros r1 r1' r2 r2' tx H1 H2 Hne.
    rewrite (Habsent _ _ H1), (Hother _ _ _ H2 Hne). reflexivity.
  - intros r r' tx Hget Heq. unfold TransactionService.get_transaction, bind.
    rewrite Hget. apply String.eqb_eq in Heq. now rewrite Heq.
Qed.

Lemma of_value_value (t : TransactionType) :
  TransactionTypeM.of_value (TransactionTypeM.value t) = Ok t.
Proof. destruct t; reflexivity. Qed.

Lemma parse_type_unknown (tx_type : string) :
  tx_type <> "expense" -> tx_type <> "income" ->
  TransactionService.parse_type tx_type
  = Raise (DomainValidationError ("Unsupported transaction type: " ++ tx_type)).
Proof.
  intros He Hi. unfold TransactionService.parse_type, TransactionTypeM.of_value.
  apply String.eqb_neq in He, Hi. now rewrite He, Hi.
Qed.

Lemma parse_type_value (t : TransactionType) :
  TransactionService.parse_type (TransactionTypeM.value t) = Ok t.
Proof. unfold TransactionService.parse_type. now rewrite of_value_value. Qed.

(** C8.  A type string that is neither ["expense"] nor ["income"] raises the
    validation error and the store is as before.  With one of the two, a
    positive amount, a currency of 3 characters and a user, the transaction
    built carries the id drawn from the generator and the reading of the
    clock as [created_at]; it is handed to the store's [add], and when [add]
    accepts it the call returns it, the store being the one [add] left. *)
Theorem record_transaction_type_validation {R : Type} {repo : TransactionRepository R}
    (uuid : string) (clock : Z) (user_id tx_type : string) (amount : Decimal.t)
    (currency : string) (occurred_at : datetime)
    (category_id account_id description : option string) :
  (tx_type <> "expense" -> tx_type <> "income" ->
     forall r : R,
       TransactionService.record_transaction uuid clock user_id tx_type amount currency
         occurred_at category_id account_id description r
       = (Raise (DomainValidationError ("Unsupported transaction type: " ++ tx_type)), r))
  /\ (forall ttype : TransactionType,
       tx_type = TransactionTypeM.value ttype ->
       0 < Decimal.unscaled amount ->
       String.length currency = 3%nat ->
       user_id <> "" ->
       let tx :=
         Transaction.mk uuid user_id ttype (Money.mk amount currency)
           (TransactionService._normalize_datetime occurred_at)
           (mk_datetime clock (Some UTC))
           category_id account_id description in
       forall r r' : R,
         add tx r = (Ok tt, r') ->
         TransactionService.record_transaction uuid clock user_id tx_type amount currency
           occurred_at category_id account_id description r
         = (Ok tx, r')).
Proof.
  split.
  - intros He Hi r. unfold TransactionService.record_transaction, bind, lift.
    now rewrite parse_type_unknown.
  - intros ttype -> Ha Hc Hu tx r r' Hadd.
    unfold TransactionService.record_transaction, bind, lift.
    rewrite parse_type_value.
    rewrite (money_init_ok _ _ Ha Hc).
    unfold Transaction.create.
    apply String.eqb_neq in Hu. rewrite Hu.
    assert (Hocc : match tzinfo occurred_at with
                   | Some _ => occurred_at
                   | None => replace_tzinfo occurred_at UTC
                   end = TransactionService._normalize_datetime occurred_at)
      by reflexivity.
    rewrite Hocc.
    destruct (normalize_aware occurred_at) as [off Hoff]. rewrite Hoff.
    fold tx. rewrite Hadd. reflexivity.
Qed.

(** C10.  For a naive [occurred_at] the call is the call on the same
    reading made aware at UTC; a transaction it returns has that value as
    [occurred_at]; and [Transaction.create], as called here, does not raise
    its naive-timestamp error: the call fails with that error only if the
    store's [add] itself raises it. *)
Theorem record_transaction_naive_normalized {R : Type} {repo : TransactionRepository R}
    (uuid : string) (clock : Z) (user_id tx_type : string) (amount : Decimal.t)
    (currency : string) (occurred_at : datetime)
    (category_id account_id description : option string) (r : R) :
  tzinfo occurred_at = None ->
  let naive_error :=
    DomainValidationError "occurred_at must be timezone-aware (e.g. UTC)" in
  let outcome :=
    TransactionService.record_transaction uuid clock user_id tx_type amount currency
      occurred_at category_id account_id description r in
  outcome
  = TransactionService.record_transaction uuid clock user_id tx_type amount currency
      (replace_tzinfo occurred_at UTC) category_id account_id description r
  /\ (forall tx, fst outcome = Ok tx ->
        Transaction.occurred_at tx = replace_tzinfo occurred_at UTC
        /\ tzinfo (Transaction.occurred_at tx) = Some UTC
        /\ wall (Transaction.occurred_at tx) = wall occurred_at)
  /\ (forall ttype money,
        Transaction.create uuid clock user_id ttype money
          (replace_tzinfo occurred_at UTC) category_id account_id description
        <> Raise naive_error)
  /\ ((forall tx, fst (add tx r) <> Raise naive_error) ->
      fst outcome <> Raise naive_error).
Proof.
  intros Hnaive naive_error outcome. subst outcome naive_error.
  unfold TransactionService.record_transaction, bind, lift. rewrite Hnaive. simpl.
  split; [reflexivity|].
  assert (Hcreate : forall ttype money,
    Transaction.create uuid clock user_id ttype money
      (replace_tzinfo occurred_at UTC) category_id account_id description
    = if String.eqb user_id "" then Raise (DomainValidationError "user_id is required")
      else Ok (Transaction.mk uuid user_id ttype money (replace_tzinfo occurred_at UTC)
                 (mk_datetime clock (Some UTC)) category_id account_id description))
    by reflexivity.
  split; [|split].
  - intros tx.
    destruct (TransactionService.parse_type tx_type) as [ttype|e]; [|discriminate].
    destruct (Money.init amount currency) as [money|e]; [|discriminate].
    rewrite Hcreate.
    destruct (String.eqb user_id ""); [discriminate|].
    destruct (add _ r) as [[[]|e] r'] eqn:Eadd; [|discriminate].
    simpl. intros Heq. inversion Heq. subst tx. simpl. auto.
  - intros ttype money. rewrite Hcreate.
    destruct (String.eqb user_id ""); discriminate.
  - intros Hadd.
    destruct (TransactionService.parse_type tx_type) as [ttype|e] eqn:Ety.
    + destruct (Money.init amount currency) as [money|e] eqn:Em.
      * rewrite Hcreate.
        destruct (String.eqb user_id ""); [discriminate|].
        match goal with
        | |- context [add ?t r] => specialize (Hadd t); destruct (add t r) as [[[]|e] r']
        end; [discriminate|].
        simpl in *. intros Hc. apply Hadd. inversion Hc. reflexivity.
      * simpl. unfold Money.init, Money.post_init in Em.
        destruct (Decimal.leb _ _); [inversion Em; discriminate|].
        destruct (_ || _)%bool; inversion Em; discriminate.
    + simpl. unfold TransactionService.parse_type in Ety.
      destruct (TransactionTypeM.of_value tx_type) as [t|e0] eqn:Eof; [discriminate|].
      unfold TransactionTypeM.of_value in Eof.
      destruct (String.eqb tx_type "expense"); [discriminate|].
      destruct (String.eqb tx_type "income"); [discriminate|].
      inversion Eof. subst e0. inversion Ety. discriminate.
Qed.

(** ** The SQL store *)

Section SQLFacts.

Import SQLAlchemyTransactionRepository.

Lemma traverse_In {A B : Type} (f : A -> result B) (l : list A) (ys : list B) (y : B) :
  traverse f l = Ok ys -> In y ys -> exists x, In x l /\ f x = Ok y.
Proof.
  revert ys. induction l as [|x l IH]; intros ys; simpl.
  - intros Heq. inversion Heq. contradiction.
  - destruct (f x) as [y0|e] eqn:Ex; [|discriminate].
    destruct (traverse f l) as [ys0|e]; [|discriminate].
    intros Heq. inversion Heq. subst ys. intros [<- | Hin].
    + exists x. auto.
    + destruct (IH ys0 eq_refl Hin) as (x' & Hx' & Hfx'). exists x'. auto.
Qed.

Lemma In_insert_desc (key : TransactionORM.t -> Z) (row x : TransactionORM.t)
    (sorted : table) :
  In x (insert_desc key row sorted) <-> x = row \/ In x sorted.
Proof.
  induction sorted as [|r rest IH]; simpl.
  - intuition.
  - destruct (key r <? key row); simpl; [intuition|].
    rewrite IH. intuition.
Qed.

(** Ordering the rows neither adds nor drops one. *)
Lemma In_order_by_desc (key : TransactionORM.t -> Z) (x : TransactionORM.t)
    (rows : table) :
  In x (order_by_desc key rows) <-> In x rows.
Proof.
  induction rows as [|r rows IH]; simpl; [tauto|].
  unfold order_by_desc in *. simpl. rewrite In_insert_desc, IH. intuition.
Qed.

Lemma in__Some (column : option string) (values : list string) :
  in_ column values = true -> exists c, column = Some c /\ In c values.
Proof.
  destruct column as [c|]; simpl; [|discriminate].
  intros H. exists c. split; [reflexivity|].
  now apply (mem_In string_key_eqb_eq).
Qed.

(** The conversion back to the domain copies every column but [type] and
    [amount]/[currency], which it parses and validates. *)
Lemma to_domain_fields (row : TransactionORM.t) (tx : Transaction.t) :
  _to_domain row = Ok tx ->
  Transaction.id tx = TransactionORM.id row
  /\ Transaction.user_id tx = TransactionORM.user_id row
  /\ Transaction.category_id tx = TransactionORM.category_id row
  /\ amount_of tx = TransactionORM.amount row.
Proof.
  unfold _to_domain.
  destruct (TransactionTypeM.of_value _) as [ty|e]; [|discriminate].
  destruct (Money.init _ _) as [m|e] eqn:Em; [|discriminate].
  intros Heq. inversion Heq. subst tx. unfold amount_of. simpl.
  unfold Money.init in Em. destruct (Money.post_init _); inversion Em.
  auto.
Qed.

(** What the listing by categories returns is filed under one of the
    categories asked for, and the table is not changed. *)
Lemma sql_list_by_categories_contract (user_id : string) (category_ids : list string)
    (rows rows' : table) (txs : list Transaction.t) :
  list_by_user_and_categories user_id category_ids rows = (Ok txs, rows') ->
  rows' = rows
  /\ forall tx, In tx txs ->
       Transaction.user_id tx = user_id
       /\ exists c, Transaction.category_id tx = Some c /\ In c category_ids.
Proof.
  unfold list_by_user_and_categories.
  destruct category_ids as [|c0 cs].
  - intros Heq. inversion Heq. split; [reflexivity | contradiction].
  - intros Heq. inversion Heq as [[Htr Hrows]]. split; [reflexivity|].
    intros tx Hin.
    destruct (traverse_In _ _ _ _ Htr Hin) as (row & Hrow & Hdom).
    apply In_order_by_desc in Hrow.
    apply filter_In in Hrow. destruct Hrow as [Hrow Hcat].
    apply filter_In in Hrow. destruct Hrow as [_ Huser].
    apply to_domain_fields in Hdom. destruct Hdom as (_ & Hu & Hc & _).
    rewrite Hu, Hc. split; [now apply String.eqb_eq|].
    now apply in__Some.
Qed.

End SQLFacts.

(** ** The mapping of [get_transactions_by_categories] *)

Lemma expense_amounts_in_none (c : option string) (txs : list Transaction.t) :
  (forall tx, In tx txs -> Transaction.type tx = expense ->
     Transaction.category_id tx <> c) ->
  expense_amounts_in c txs = [].
Proof.
  intros Hnone. unfold expense_amounts_in.
  induction txs as [|tx txs IH]; simpl; [reflexivity|].
  destruct (is_expense tx) eqn:Ety; simpl.
  - destruct (opt_str_eqb (Transaction.category_id tx) c) eqn:Ec; simpl.
    + exfalso. apply (Hnone tx); [simpl; auto | now apply is_expense_iff |].
      now apply opt_str_eqb_eq.
    + apply IH. intros tx' Hin. apply Hnone. simpl. auto.
  - apply IH. intros tx' Hin. apply Hnone. simpl. auto.
Qed.

(** Over any store that returns only transactions of the categories asked
    for, the mapping has the deduplicated ids as keys, in their order, and
    each holds the sum of the expenses of its category. *)
Lemma by_categories_mapping_under_contract {R : Type} {repo : TransactionRepository R}
    (user_id : string) (category_ids : list string) (r r' : R)
    (txs : list Transaction.t) :
  category_ids <> [] ->
  list_by_user_and_categories user_id (dedup_first_seen category_ids) r = (Ok txs, r') ->
  (forall tx c, In tx txs -> Transaction.category_id tx = Some c ->
     In c (dedup_first_seen category_ids)) ->
  exists total by_cat,
    TransactionService.get_transactions_by_categories user_id category_ids r
    = (Ok (txs, total, by_cat), r')
    /\ keys by_cat = dedup_first_seen category_ids
    /\ NoDup (keys by_cat)
    /\ (forall c, In c category_ids ->
          dict_get c by_cat = Some (Decimal.sum (expense_amounts_in (Some c) txs)))
    /\ (forall c, In c category_ids ->
          (forall tx, In tx txs -> Transaction.type tx = expense ->
             Transaction.category_id tx <> Some c) ->
          dict_get c by_cat = Some Decimal.zero).
Proof.
  intros Hne Hlist Hcontract.
  assert (Hne' : dedup_first_seen category_ids <> []).
  { intros H. apply Hne. now apply (proj1 (dedup_first_seen_nil _)). }
  rewrite (by_categories_run user_id category_ids r r' txs Hne' Hlist).
  set (final := fold_left _ txs _).
  assert (Hkeys : keys (snd final) = dedup_first_seen category_ids).
  { unfold final. rewrite by_categories_keys_closed.
    - rewrite (keys_dict_comprehension string_key_eqb_eq).
      apply (dedup_first_seen_NoDup string_key_eqb_eq).
      apply (NoDup_dedup_first_seen string_key_eqb_eq).
    - intros tx c Hin Hc.
      rewrite (keys_dict_comprehension string_key_eqb_eq).
      apply (In_dedup_first_seen string_key_eqb_eq).
      now apply (Hcontract tx). }
  assert (Hval : forall c, In c category_ids ->
            dict_get c (snd final)
            = Some (Decimal.sum (expense_amounts_in (Some c) txs))).
  { intros c Hc. apply by_categories_bucket_value. fold final. rewrite Hkeys.
    now apply (In_dedup_first_seen string_key_eqb_eq). }
  exists (fst final), (snd final).
  split; [reflexivity | split; [exact Hkeys | split; [| split; [exact Hval|]]]].
  - rewrite Hkeys. apply (NoDup_dedup_first_seen string_key_eqb_eq).
  - intros c Hc Hnone. rewrite (Hval c Hc).
    now rewrite expense_amounts_in_none.
Qed.

(** C2.  With the SQL store, for a list of category ids that is not empty:
    when the listing returns [txs], the mapping of the call has as keys the
    ids asked for, duplicates removed and first-seen order kept, each once;
    the value of an id is the sum of the amounts of the expenses of [txs]
    filed under it, which is zero when there is none. *)
Theorem by_categories_mapping_entries
    (user_id : string) (category_ids : list string) (rows rows' : table)
    (txs : list Transaction.t) :
  category_ids <> [] ->
  list_by_user_and_categories (R := table) user_id (dedup_first_seen category_ids) rows
  = (Ok txs, rows') ->
  exists total by_cat,
    TransactionService.get_transactions_by_categories (R := table)
      user_id category_ids rows
    = (Ok (txs, total, by_cat), rows')
    /\ keys by_cat = dedup_first_seen category_ids
    /\ NoDup (keys by_cat)
    /\ (forall c, In c category_ids ->
          dict_get c by_cat = Some (Decimal.sum (expense_amounts_in (Some c) txs)))
    /\ (forall c, In c category_ids ->
          (forall tx, In tx txs -> Transaction.type tx = expense ->
             Transaction.category_id tx <> Some c) ->
          dict_get c by_cat = Some Decimal.zero).
Proof.
  intros Hne Hlist.
  apply by_categories_mapping_under_contract; [assumption | assumption |].
  intros tx c Hin Hc.
  destruct (sql_list_by_categories_contract _ _ _ _ _ Hlist) as (_ & Hall).
  destruct (Hall tx Hin) as (_ & c' & Hc' & Hin').
  congruence.
Qed.

(** The in-memory store of the tests keeps the same contract, and so gives
    the same mapping. *)
Lemma by_categories_mapping_in_memory
    (user_id : string) (category_ids : list string)
    (items : InMemoryTransactionRepository.items) :
  category_ids <> [] ->
  exists txs total by_cat,
    TransactionService.get_transactions_by_categories
      (R := InMemoryTransactionRepository.items) user_id category_ids items
    = (Ok (txs, total, by_cat), items)
    /\ keys by_cat = dedup_first_seen category_ids.
Proof.
  intros Hne.
  set (txs :=
    filter (fun tx => String.eqb (Transaction.user_id tx) user_id
                      && in_ (Transaction.category_id tx) (dedup_first_seen category_ids))
      (InMemoryTransactionRepository.values items)).
  assert (Hlist : list_by_user_and_categories (R := InMemoryTransactionRepository.items)
                    user_id (dedup_first_seen category_ids) items = (Ok txs, items))
    by reflexivity.
  destruct (by_categories_mapping_under_contract (R := InMemoryTransactionRepository.items)
              user_id category_ids items items txs Hne Hlist)
    as (total & by_cat & Hrun & Hkeys & _).
  - intros tx c Hin Hc. unfold txs in Hin. apply filter_In in Hin.
    destruct Hin as [_ Hf]. apply andb_prop in Hf. destruct Hf as [_ Hf].
    apply in__Some in Hf. destruct Hf as (c' & Hc' & Hin'). congruence.
  - exists txs, total, by_cat. auto.
Qed.

(** ** The round trip through the SQL store *)

Section RoundTrip.

Import SQLAlchemyTransactionRepository.


(** An insert that succeeds found no row under the id and appended
    [row_of tx]. *)
Lemma sql_add_inv (tx : Transaction.t) (rows rows' : table) :
  add tx rows = (Ok tt, rows') ->
  session_get (Transaction.id tx) rows = None /\ rows' = rows ++ [row_of tx].
Proof.
  unfold add, session_add_commit, TransactionORM.stored, Numeric. simpl.
  destruct (Z.abs _ <? _); [|intros H; inversion H].
  destruct (String_ 3 _) as [cur|e] eqn:Ecur; [|intros H; inversion H].
  destruct (String_nullable 500 _) as [desc|e] eqn:Edesc; [|intros H; inversion H].
  simpl.
  destruct (session_get _ rows) eqn:Eget; [intros H; inversion H|].
  intros H. inversion H. split; [reflexivity|].
  unfold String_ in Ecur. destruct (_ <=? _)%nat; inversion Ecur. subst cur.
  unfold String_nullable, String_ in Edesc.
  destruct (Transaction.description tx) as [ds|] eqn:Eds.
  - destruct (_ <=? _)%nat; inversion Edesc. subst desc.
    unfold row_of. now rewrite Eds.
  - inversion Edesc. subst desc. unfold row_of. now rewrite Eds.
Qed.







End RoundTrip.



(** ** The statements at concrete inputs *)

(** The example of the specification: expense(food, 100), income(food, 20)
    and expense(transport, 40) give the total 140 and the buckets 100 and
    40. *)
Example by_categories_example :
  fst (TransactionService.get_transactions_by_categories (R := table)
         "u1" ["food"; "transport"] sample_table)
  = Ok (sample_fetched, dec 14000 2,
        [("food", dec 10000 2); ("transport", dec 4000 2)]).
Proof. vm_compute. reflexivity. Qed.

(** An amount of 0.001 is a valid [Money], is stored as 0.00, and then
    cannot be read back at all. *)
Example sql_get_rejects_rounded_zero :
  let tx := tx_of "t8" "u1" expense (dec 1 3) None 10 100 in
  Money.post_init (Transaction.money tx) = Ok tt
  /\ exists rows',
       SQLAlchemyTransactionRepository.add tx [] = (Ok tt, rows')
       /\ fst (SQLAlchemyTransactionRepository.get "t8" rows')
          = Raise (DomainValidationError "Amount must be greater than 0").
Proof. split; [reflexivity|]. eexists. split; vm_compute; reflexivity. Qed.

Lemma by_categories_total_expense_witness :
  dedup_first_seen ["food"; "transport"; "food"] <> []
  /\ list_by_user_and_categories (R := table) "u1"
       (dedup_first_seen ["food"; "transport"; "food"]) sample_table
     = (Ok sample_fetched, sample_table)
  /\ exists by_cat,
       TransactionService.get_transactions_by_categories (R := table)
         "u1" ["food"; "transport"; "food"] sample_table
       = (Ok (sample_fetched, dec 14000 2, by_cat), sample_table).
Proof.
  assert (H1 : dedup_first_seen ["food"; "transport"; "food"] <> [])
    by (vm_compute; discriminate).
  assert (H2 : list_by_user_and_categories (R := table) "u1"
                 (dedup_first_seen ["food"; "transport"; "food"]) sample_table
               = (Ok sample_fetched, sample_table))
    by (vm_compute; reflexivity).
  destruct (by_categories_total_expense "u1" ["food"; "transport"; "food"]
              sample_table sample_table sample_fetched H1 H2)
    as (by_cat & Hrun & _).
  split; [exact H1 | split; [exact H2 | exists by_cat; exact Hrun]].
Defined.

Lemma by_categories_mapping_entries_witness :
  ["transport"; "food"; "transport"; "health"] <> []
  /\ exists txs total by_cat,
       TransactionService.get_transactions_by_categories (R := table)
         "u1" ["transport"; "food"; "transport"; "health"] sample_table
       = (Ok (txs, total, by_cat), sample_table)
       /\ keys by_cat = ["transport"; "food"; "health"]
       /\ dict_get "health" by_cat = Some Decimal.zero.
Proof.
  assert (H1 : ["transport"; "food"; "transport"; "health"] <> []) by discriminate.
  assert (H2 : list_by_user_and_categories (R := table) "u1"
                 (dedup_first_seen ["transport"; "food"; "transport"; "health"])
                 sample_table
               = (Ok sample_fetched, sample_table))
    by (vm_compute; reflexivity).
  destruct (by_categories_mapping_entries "u1" ["transport"; "food"; "transport"; "health"]
              sample_table sample_table sample_fetched H1 H2)
    as (total & by_cat & Hrun & Hkeys & _ & _ & Hzero).
  split; [exact H1|].
  exists sample_fetched, total, by_cat.
  split; [exact Hrun | split; [exact Hkeys|]].
  apply Hzero; [simpl; auto|].
  intros tx Hin Hty Hc. simpl in Hin.
  repeat (destruct Hin as [<- | Hin]; [discriminate|]). contradiction.
Defined.


Lemma get_transaction_ownership_witness :
  TransactionService.get_transaction (R := table) "u1" "missing" sample_table
  = (Raise (NotFoundError "Transaction not found"), sample_table)
  /\ TransactionService.get_transaction (R := table) "u1" "t4" sample_table
     = (Raise (NotFoundError "Transaction not found"), sample_table)
  /\ TransactionService.get_transaction (R := table) "u2" "t4" sample_table
     = (Ok (tx_of "t4" "u2" expense (dec 99900 2) (Some "food") 13 103), sample_table).
Proof.
  split; [|split].
  - destruct (get_transaction_ownership (R := table) "u1" "missing") as (Habsent & _).
    apply Habsent. vm_compute. reflexivity.
  - destruct (get_transaction_ownership (R := table) "u1" "t4") as (_ & Hother & _).
    apply (Hother sample_table sample_table
             (tx_of "t4" "u2" expense (dec 99900 2) (Some "food") 13 103)).
    + vm_compute. reflexivity.
    + simpl. discriminate.
  - destruct (get_transaction_ownership (R := table) "u2" "t4") as (_ & _ & _ & Hown).
    apply Hown; [vm_compute|]; reflexivity.
Defined.

Lemma for_period_expense_by_category_witness :
  utc_instant (naive 0) <= utc_instant (at_utc 1000)
  /\ exists by_cat,
       TransactionService.get_transactions_for_period
         (R := InMemoryTransactionRepository.items) "u1" (naive 0) (at_utc 1000) sample_items
       = (Ok (sample_in_period, dec 14750 2, by_cat), sample_items)
       /\ In None (keys by_cat)
       /\ ~ In (Some "health") (keys by_cat).
Proof.
  assert (H1 : utc_instant (naive 0) <= utc_instant (at_utc 1000))
    by (vm_compute; discriminate).
  assert (H2 : list_by_user_and_period (R := InMemoryTransactionRepository.items) "u1"
                 (TransactionService._normalize_datetime (naive 0))
                 (TransactionService._normalize_datetime (at_utc 1000)) sample_items
               = (Ok sample_in_period, sample_items))
    by (vm_compute; reflexivity).
  destruct (for_period_expense_by_category "u1" (naive 0) (at_utc 1000)
              sample_items sample_items sample_in_period H1 H2)
    as (by_cat & Hrun & Hkeys & _).
  split; [exact H1|]. exists by_cat. split; [exact Hrun | split].
  - apply Hkeys. exists (tx_of "t5" "u1" expense (dec 750 2) None 14 104).
    simpl. auto 6.
  - intros Hin. apply Hkeys in Hin. destruct Hin as (tx & Hin & _ & Hc).
    simpl in Hin.
    repeat (destruct Hin as [<- | Hin]; [discriminate|]). contradiction.
Defined.

Lemma for_period_range_validation_witness :
  TransactionService.get_transactions_for_period (R := table)
    "u1" (at_utc 200) (naive 100) sample_table
  = (Raise (DomainValidationError "start_at must be before or equal to end_at"),
     sample_table)
  /\ exists total by_cat,
       TransactionService.get_transactions_for_period (R := table)
         "u1" (naive 10) (mk_datetime 13 (Some 3)) sample_table
       = (Ok ([tx_of "t1" "u1" expense (dec 10000 2) (Some "food") 10 100], total, by_cat),
          sample_table).
Proof.
  split.
  - apply (for_period_range_validation (R := table)). vm_compute. reflexivity.
  - destruct (for_period_range_validation (R := table)
                "u1" (naive 10) (mk_datetime 13 (Some 3)) sample_table)
      as (_ & Heq).
    destruct Heq as (Hok & _); [vm_compute; reflexivity|].
    apply Hok. vm_compute. reflexivity.
Defined.

Lemma by_categories_empty_rejected_witness :
  TransactionService.get_transactions_by_categories (R := Recording.t table)
    "u1" [] (sample_table, [])
  = (Raise (DomainValidationError "category_ids must not be empty"), (sample_table, [])).
Proof.
  destruct (by_categories_empty_rejected (R := table) "u1" []) as (_ & _ & Hlog).
  - reflexivity.
  - apply Hlog.
Defined.

Lemma record_transaction_type_validation_witness :
  TransactionService.record_transaction (R := table) "t7" 1000 "u1" "transfer"
    (dec 1050 2) "RUB" (at_utc 55) (Some "salary") None (Some "pay") sample_table
  = (Raise (DomainValidationError "Unsupported transaction type: transfer"), sample_table)
  /\ TransactionService.record_transaction (R := table) "t7" 1000 "u1" "income"
       (dec 1050 2) "RUB" (at_utc 55) (Some "salary") None (Some "pay") sample_table
     = (Ok tx_new, sample_table ++ [row_of tx_new]).
Proof.
  split.
  - apply (record_transaction_type_validation (R := table)); discriminate.
  - apply (record_transaction_type_validation (R := table) "t7" 1000 "u1" "income"
             (dec 1050 2) "RUB" (at_utc 55) (Some "salary") None (Some "pay")).
    + reflexivity.
    + reflexivity.
    + reflexivity.
    + discriminate.
    + vm_compute. reflexivity.
Defined.

Lemma record_transaction_naive_normalized_witness :
  tzinfo (naive 55) = None
  /\ exists tx,
       fst (TransactionService.record_transaction
              (R := InMemoryTransactionRepository.items) "t7" 1000 "u1" "income"
              (dec 1050 2) "RUB" (naive 55) (Some "salary") None (Some "pay") sample_items)
       = Ok tx
       /\ Transaction.occurred_at tx = at_utc 55.
Proof.
  split; [reflexivity|].
  destruct (record_transaction_naive_normalized
              (R := InMemoryTransactionRepository.items) "t7" 1000 "u1" "income"
              (dec 1050 2) "RUB" (naive 55) (Some "salary") None (Some "pay") sample_items
              eq_refl)
    as (_ & Hocc & _).
  exists tx_new. split; [vm_compute; reflexivity|].
  apply (Hocc tx_new). vm_compute. reflexivity.
Defined.

(** * Further properties of the code *)

(** ** Decimal addition is a commutative monoid *)

Section DecimalMonoid.

Lemma pow10_0 : Decimal.pow10 0 = 1.
Proof. reflexivity. Qed.


Lemma add_zero_l (a : Decimal.t) : Decimal.add Decimal.zero a = a.
Proof.
  destruct a as [u s]. unfold Decimal.add, Decimal.zero. simpl.
  rewrite Nat.sub_diag, pow10_0. f_equal. lia.
Qed.

Lemma add_comm (a b : Decimal.t) : Decimal.add a b = Decimal.add b a.
Proof.
  unfold Decimal.add. rewrite (Nat.max_comm (Decimal.scale b)). f_equal. lia.
Qed.

Lemma add_zero_r (a : Decimal.t) : Decimal.add a Decimal.zero = a.
Proof. rewrite add_comm. apply add_zero_l. Qed.

Lemma add_assoc (a b c : Decimal.t) :
  Decimal.add (Decimal.add a b) c = Decimal.add a (Decimal.add b c).
Proof.
  destruct a as [ua sa], b as [ub sb], c as [uc sc].
  unfold Decimal.add. simpl.
  rewrite Nat.max_assoc. f_equal.
  set (M := Nat.max (Nat.max sa sb) sc).
  assert (Hsa : (sa <= Nat.max sa sb)%nat) by lia.
  assert (Hsb : (sb <= Nat.max sa sb)%nat) by lia.
  assert (Hsb' : (sb <= Nat.max sb sc)%nat) by lia.
  assert (Hsc' : (sc <= Nat.max sb sc)%nat) by lia.
  assert (H1 : (Nat.max sa sb <= M)%nat) by (unfold M; lia).
  assert (H2 : (Nat.max sb sc <= M)%nat) by (unfold M; lia).
  assert (Ea : Decimal.pow10 (Nat.max sa sb - sa) * Decimal.pow10 (M - Nat.max sa sb)
               = Decimal.pow10 (M - sa))
    by (rewrite <- pow10_add; f_equal; lia).
  assert (Eb : Decimal.pow10 (Nat.max sa sb - sb) * Decimal.pow10 (M - Nat.max sa sb)
               = Decimal.pow10 (M - sb))
    by (rewrite <- pow10_add; f_equal; lia).
  assert (Eb' : Decimal.pow10 (Nat.max sb sc - sb) * Decimal.pow10 (M - Nat.max sb sc)
                = Decimal.pow10 (M - sb))
    by (rewrite <- pow10_add; f_equal; lia).
  assert (Ec' : Decimal.pow10 (Nat.max sb sc - sc) * Decimal.pow10 (M - Nat.max sb sc)
                = Decimal.pow10 (M - sc))
    by (rewrite <- pow10_add; f_equal; lia).
  rewrite Z.mul_add_distr_r, <- !Z.mul_assoc, Ea, Eb.
  rewrite Z.mul_add_distr_r, <- !Z.mul_assoc, Eb', Ec'.
  lia.
Qed.

Lemma fold_add_sum (l : list Decimal.t) (a : Decimal.t) :
  fold_left Decimal.add l a = Decimal.add a (Decimal.sum l).
Proof.
  unfold Decimal.sum. revert a. induction l as [|x l IH]; intros a; simpl.
  - now rewrite add_zero_r.
  - rewrite IH, (IH (Decimal.add Decimal.zero x)), add_zero_l. apply add_assoc.
Qed.

Lemma sum_cons (x : Decimal.t) (l : list Decimal.t) :
  Decimal.sum (x :: l) = Decimal.add x (Decimal.sum l).
Proof.
  unfold Decimal.sum at 1. simpl. now rewrite fold_add_sum, add_zero_l.
Qed.

Lemma sum_app (l1 l2 : list Decimal.t) :
  Decimal.sum (l1 ++ l2) = Decimal.add (Decimal.sum l1) (Decimal.sum l2).
Proof.
  induction l1 as [|x l1 IH]; simpl.
  - change (Decimal.sum []) with Decimal.zero. now rewrite add_zero_l.
  - now rewrite !sum_cons, IH, add_assoc.
Qed.

End DecimalMonoid.

(** ** The total and the buckets *)

Section TotalsAndBuckets.

Import TransactionService.






(** What a successful call of each aggregation returns is what its loop
    left. *)
Lemma for_period_ok_inv {R : Type} {repo : TransactionRepository R}
    (user_id : string) (start_at end_at : datetime) (r r' : R)
    (txs : list Transaction.t) (total : Decimal.t)
    (by_cat : dict (option string) Decimal.t) :
  get_transactions_for_period user_id start_at end_at r = (Ok (txs, total, by_cat), r') ->
  list_by_user_and_period user_id (_normalize_datetime start_at)
    (_normalize_datetime end_at) r = (Ok txs, r')
  /\ utc_instant start_at <= utc_instant end_at
  /\ fold_left for_period_step txs (Decimal.zero, []) = (total, by_cat).
Proof.
  unfold get_transactions_for_period.
  unfold bind at 1. unfold lift. rewrite normalized_gt.
  destruct (Z.ltb_spec (utc_instant end_at) (utc_instant start_at)) as [Hlt | Hle].
  - unfold raise. discriminate.
  - unfold bind.
    destruct (list_by_user_and_period _ _ _ r) as [[l|e] r0]; [|discriminate].
    destruct (fold_left _ l _) as [t d] eqn:Efold. unfold ret.
    intros Heq. inversion Heq. subst. auto.
Qed.

Lemma by_categories_ok_inv {R : Type} {repo : TransactionRepository R}
    (user_id : string) (category_ids : list string) (r r' : R)
    (txs : list Transaction.t) (total : Decimal.t) (by_cat : dict string Decimal.t) :
  get_transactions_by_categories user_id category_ids r = (Ok (txs, total, by_cat), r') ->
  category_ids <> []
  /\ list_by_user_and_categories user_id (dedup_first_seen category_ids) r = (Ok txs, r')
  /\ fold_left by_categories_step txs
       (Decimal.zero, dict_comprehension (dedup_first_seen category_ids) Decimal.zero)
     = (total, by_cat).
Proof.
  unfold get_transactions_by_categories.
  rewrite (keys_fromkeys string_key_eqb_eq).
  destruct (dedup_first_seen category_ids) as [|c0 cs] eqn:Ecs.
  - unfold raise. discriminate.
  - unfold bind.
    destruct (list_by_user_and_categories _ _ r) as [[l|e] r0]; [|discriminate].
    destruct (fold_left _ l _) as [t d] eqn:Efold. unfold ret.
    intros Heq. inversion Heq. subst. split; [|auto].
    intros ->. discriminate.
Qed.

End TotalsAndBuckets.





(** X3.  Whatever the store, repeats in the list of categories change
    nothing: the call on a list is the call on the list without its
    repeats. *)
Theorem by_categories_ignores_repeats {R : Type} {repo : TransactionRepository R}
    (user_id : string) (category_ids : list string) (r : R) :
  TransactionService.get_transactions_by_categories user_id category_ids r
  = TransactionService.get_transactions_by_categories user_id
      (dedup_first_seen category_ids) r.
Proof.
  unfold TransactionService.get_transactions_by_categories.
  rewrite !(keys_fromkeys string_key_eqb_eq).
  rewrite (dedup_first_seen_NoDup string_key_eqb_eq (dedup_first_seen category_ids)).
  - reflexivity.
  - apply (NoDup_dedup_first_seen string_key_eqb_eq).
Qed.

(** ** The table of the SQL store *)

Section TableFacts.

Import SQLAlchemyTransactionRepository.

Lemma find_app {A : Type} (f : A -> bool) (l1 l2 : list A) :
  find f (l1 ++ l2) = match find f l1 with Some x => Some x | None => find f l2 end.
Proof.
  induction l1 as [|x l1 IH]; simpl; [reflexivity|].
  destruct (f x); [reflexivity | exact IH].
Qed.

Lemma session_get_None (pk : string) (rows : table) :
  session_get pk rows = None <-> ~ In pk (ids rows).
Proof.
  unfold session_get, ids. induction rows as [|row rows IH]; simpl.
  - tauto.
  - destruct (String.eqb_spec (TransactionORM.id row) pk) as [Heq | Hne].
    + split; [discriminate | intros H; exfalso; auto].
    + rewrite IH. tauto.
Qed.

Lemma session_get_Some (pk : string) (rows : table) (row : TransactionORM.t) :
  session_get pk rows = Some row -> In row rows /\ TransactionORM.id row = pk.
Proof.
  unfold session_get. intros H. apply find_some in H. destruct H as [Hin Heq].
  split; [assumption | now apply String.eqb_eq].
Qed.


End TableFacts.

(** X4.  [add] of the SQL store never overwrites: on an id that is already
    in the table it raises ([IntegrityError], or [DataError] when a column
    cannot hold its value), and an [add] that raises leaves the table as it
    was. *)
Theorem sql_add_never_overwrites (tx : Transaction.t) (rows : table) :
  (In (Transaction.id tx) (ids rows) ->
     exists e,
       SQLAlchemyTransactionRepository.add tx rows = (Raise e, rows)
       /\ (e = IntegrityError "UNIQUE constraint failed: transactions.id"
           \/ exists msg, e = DataError msg))
  /\ (forall e rows',
        SQLAlchemyTransactionRepository.add tx rows = (Raise e, rows') -> rows' = rows).
Proof.
  split.
  - intros Hin.
    unfold SQLAlchemyTransactionRepository.add, session_add_commit,
      TransactionORM.stored, Numeric, String_nullable, String_.
    simpl.
    destruct (_ <? _); [|eauto].
    destruct (_ <=? 3)%nat; [|eauto].
    destruct (Transaction.description tx) as [d|].
    + destruct (_ <=? 500)%nat; [|eauto]. simpl.
      destruct (session_get _ rows) eqn:Eget; [eauto|].
      apply session_get_None in Eget. contradiction.
    + simpl. destruct (session_get _ rows) eqn:Eget; [eauto|].
      apply session_get_None in Eget. contradiction.
  - intros e rows' Hadd.
    unfold SQLAlchemyTransactionRepository.add in Hadd.
    destruct (session_add_commit _ rows); inversion Hadd; reflexivity.
Qed.

Lemma sql_add_never_overwrites_witness :
  In "t1" (ids sample_table)
  /\ SQLAlchemyTransactionRepository.add
       (tx_of "t1" "u2" income (dec 5 0) None 50 500) sample_table
     = (Raise (IntegrityError "UNIQUE constraint failed: transactions.id"), sample_table).
Proof.
  assert (Hin : In "t1" (ids sample_table)) by (vm_compute; auto).
  split; [exact Hin|].
  destruct (sql_add_never_overwrites
              (tx_of "t1" "u2" income (dec 5 0) None 50 500) sample_table)
    as (Hdup & _).
  destruct (Hdup Hin) as (e & Hadd & _).
  rewrite Hadd. vm_compute in Hadd. inversion Hadd. reflexivity.
Defined.


(** X6.  An [add] that the SQL store accepts changes what [get] returns
    for no other id. *)
Theorem sql_add_frame (tx : Transaction.t) (rows rows' : table) (other_id : string) :
  SQLAlchemyTransactionRepository.add tx rows = (Ok tt, rows') ->
  other_id <> Transaction.id tx ->
  fst (SQLAlchemyTransactionRepository.get other_id rows')
  = fst (SQLAlchemyTransactionRepository.get other_id rows).
Proof.
  intros Hadd Hne. apply sql_add_inv in Hadd. destruct Hadd as [_ ->].
  unfold SQLAlchemyTransactionRepository.get, session_get.
  rewrite find_app. simpl.
  destruct (find _ rows) as [row|];
    [destruct (SQLAlchemyTransactionRepository._to_domain row); reflexivity|].
  assert (Hf : String.eqb (Transaction.id tx) other_id = false)
    by (apply String.eqb_neq; congruence).
  rewrite Hf. reflexivity.
Qed.

Lemma sql_add_frame_witness :
  SQLAlchemyTransactionRepository.add tx_new sample_table
  = (Ok tt, sample_table ++ [row_of tx_new])
  /\ "t3" <> Transaction.id tx_new
  /\ fst (SQLAlchemyTransactionRepository.get "t3" (sample_table ++ [row_of tx_new]))
     = fst (SQLAlchemyTransactionRepository.get "t3" sample_table).
Proof.
  assert (H1 : SQLAlchemyTransactionRepository.add tx_new sample_table
               = (Ok tt, sample_table ++ [row_of tx_new]))
    by (vm_compute; reflexivity).
  assert (H2 : "t3" <> Transaction.id tx_new) by discriminate.
  split; [exact H1 | split; [exact H2|]].
  exact (sql_add_frame tx_new sample_table _ "t3" H1 H2).
Defined.

(** X7.  [get] of the SQL store returns [None] exactly for the ids that no
    row of the table has; and then the table is as it was. *)
Theorem sql_get_missing (transaction_id : string) (rows : table) :
  SQLAlchemyTransactionRepository.get transaction_id rows = (Ok None, rows)
  <-> ~ In transaction_id (ids rows).
Proof.
  rewrite <- session_get_None.
  unfold SQLAlchemyTransactionRepository.get.
  destruct (session_get transaction_id rows) as [row|] eqn:Eget.
  - split; [|discriminate].
    destruct (SQLAlchemyTransactionRepository._to_domain row); discriminate.
  - split; reflexivity.
Qed.

(** ** The listings of the SQL store *)

Section ListingFacts.

Import SQLAlchemyTransactionRepository.

Lemma traverse_length {A B : Type} (f : A -> result B) (l : list A) (ys : list B) :
  traverse f l = Ok ys -> List.length ys = List.length l.
Proof.
  revert ys. induction l as [|x l IH]; intros ys; simpl.
  - intros H. inversion H. reflexivity.
  - destruct (f x); [|discriminate].
    destruct (traverse f l) as [ys0|]; [|discriminate].
    intros H. inversion H. simpl. f_equal. now apply IH.
Qed.

Lemma traverse_complete {A B : Type} (f : A -> result B) (l : list A) (ys : list B)
    (x : A) :
  traverse f l = Ok ys -> In x l -> exists y, In y ys /\ f x = Ok y.
Proof.
  revert ys. induction l as [|x0 l IH]; intros ys; simpl; [contradiction|].
  destruct (f x0) as [y0|] eqn:E0; [|discriminate].
  destruct (traverse f l) as [ys0|]; [|discriminate].
  intros H. inversion H. subst ys. intros [<- | Hin].
  - exists y0. simpl. auto.
  - destruct (IH ys0 eq_refl Hin) as (y & Hy & Hfy). exists y. simpl. auto.
Qed.

Lemma traverse_map {A B C : Type} (f : A -> result B) (g : B -> C) (h : A -> C)
    (l : list A) (ys : list B) :
  (forall x y, f x = Ok y -> g y = h x) ->
  traverse f l = Ok ys -> map g ys = map h l.
Proof.
  intros Hgh. revert ys. induction l as [|x l IH]; intros ys; simpl.
  - intros H. inversion H. reflexivity.
  - destruct (f x) as [y|] eqn:E; [|discriminate].
    destruct (traverse f l) as [ys0|]; [|discriminate].
    intros H. inversion H. simpl. f_equal; [now apply Hgh | now apply IH].
Qed.


Lemma length_insert_desc (key : TransactionORM.t -> Z) (row : TransactionORM.t)
    (sorted : table) :
  List.length (insert_desc key row sorted) = S (List.length sorted).
Proof.
  induction sorted as [|r rest IH]; simpl; [reflexivity|].
  destruct (key r <? key row); simpl; [reflexivity | now rewrite IH].
Qed.

Lemma length_order_by_desc (key : TransactionORM.t -> Z) (rows : table) :
  List.length (order_by_desc key rows) = List.length rows.
Proof.
  induction rows as [|r rows IH]; simpl; [reflexivity|].
  unfold order_by_desc in *. simpl. now rewrite length_insert_desc, IH.
Qed.

Lemma descending_insert_desc (key : TransactionORM.t -> Z) (row : TransactionORM.t)
    (sorted : table) :
  descending (map key sorted) -> descending (map key (insert_desc key row sorted)).
Proof.
  induction sorted as [|r rest IH]; simpl.
  - intros _. split; [contradiction | exact I].
  - intros [Hhd Htl]. destruct (Z.ltb_spec (key r) (key row)) as [Hlt | Hge]; simpl.
    + split; [|split; assumption].
      intros y [<- | Hy]; [lia|]. specialize (Hhd y Hy). lia.
    + split; [|now apply IH].
      intros y Hy. apply in_map_iff in Hy. destruct Hy as (x & <- & Hx).
      apply In_insert_desc in Hx. destruct Hx as [-> | Hx]; [lia|].
      apply Hhd. now apply in_map.
Qed.

(** [order_by(... .desc())] gives the rows with the key never going up. *)
Lemma descending_order_by_desc (key : TransactionORM.t -> Z) (rows : table) :
  descending (map key (order_by_desc key rows)).
Proof.
  induction rows as [|r rows IH]; simpl; [exact I|].
  unfold order_by_desc in *. simpl. now apply descending_insert_desc.
Qed.

Lemma to_domain_times (row : TransactionORM.t) (tx : Transaction.t) :
  _to_domain row = Ok tx ->
  Transaction.occurred_at tx = TransactionORM.occurred_at row
  /\ Transaction.created_at tx = TransactionORM.created_at row.
Proof.
  unfold _to_domain.
  destruct (TransactionTypeM.of_value _) as [ty|e]; [|discriminate].
  destruct (Money.init _ _) as [m|e]; [|discriminate].
  intros Heq. inversion Heq. auto.
Qed.

(** A listing converts a selection of the rows, each to a transaction of
    the same id: nothing is listed that was not selected, and nothing
    selected is left out. *)
Lemma listed_iff_selected (selected : table) (l : list Transaction.t) :
  traverse _to_domain selected = Ok l ->
  (forall t, In t l ->
     exists row, In row selected /\ _to_domain row = Ok t)
  /\ (forall row, In row selected -> In (TransactionORM.id row) (map Transaction.id l)).
Proof.
  intros Htr. split.
  - intros t Hin. now apply (traverse_In _ _ _ _ Htr).
  - intros row Hrow. destruct (traverse_complete _ _ _ _ Htr Hrow) as (t & Ht & Hdom).
    apply to_domain_fields in Hdom. destruct Hdom as (Hid & _).
    rewrite <- Hid. now apply in_map.
Qed.

Lemma list_by_user_inv (user_id : string) (rows rows' : table) (l : list Transaction.t) :
  list_by_user user_id rows = (Ok l, rows') ->
  rows' = rows
  /\ traverse _to_domain
       (order_by_desc (fun row => utc_instant (TransactionORM.created_at row))
          (filter (fun row => String.eqb (TransactionORM.user_id row) user_id) rows))
     = Ok l.
Proof. unfold list_by_user. intros H. inversion H. auto. Qed.

Lemma list_by_period_inv (user_id : string) (s e : datetime) (rows rows' : table)
    (l : list Transaction.t) :
  list_by_user_and_period user_id s e rows = (Ok l, rows') ->
  rows' = rows
  /\ traverse _to_domain
       (order_by_desc (fun row => utc_instant (TransactionORM.occurred_at row))
          (filter (fun row => utc_instant (TransactionORM.occurred_at row) <=? utc_instant e)
             (filter (fun row => utc_instant s <=? utc_instant (TransactionORM.occurred_at row))
                (filter (fun row => String.eqb (TransactionORM.user_id row) user_id) rows))))
     = Ok l.
Proof. unfold list_by_user_and_period. intros H. inversion H. auto. Qed.

Lemma list_by_user_complete (user_id : string) (rows rows' : table)
    (l : list Transaction.t) (row : TransactionORM.t) :
  list_by_user user_id rows = (Ok l, rows') ->
  In row rows -> TransactionORM.user_id row = user_id ->
  In (TransactionORM.id row) (map Transaction.id l).
Proof.
  intros Hl Hin Hu. apply list_by_user_inv in Hl. destruct Hl as [_ Htr].
  apply (listed_iff_selected _ _ Htr). apply In_order_by_desc, filter_In.
  split; [assumption | now apply String.eqb_eq].
Qed.

Lemma list_by_categories_complete (user_id : string) (cs : list string)
    (rows rows' : table) (l : list Transaction.t) (row : TransactionORM.t) (c : string) :
  list_by_user_and_categories user_id cs rows = (Ok l, rows') ->
  In row rows -> TransactionORM.user_id row = user_id ->
  TransactionORM.category_id row = Some c -> In c cs ->
  In (TransactionORM.id row) (map Transaction.id l).
Proof.
  intros Hl Hin Hu Hc Hcs. unfold list_by_user_and_categories in Hl.
  destruct cs as [|c0 cs']; [contradiction|].
  inversion Hl as [[Htr Hrows]].
  apply (listed_iff_selected _ _ Htr). apply In_order_by_desc, filter_In.
  split.
  - apply filter_In. split; [assumption | apply String.eqb_eq; exact Hu].
  - rewrite Hc. unfold in_. now apply (mem_In string_key_eqb_eq).
Qed.


End ListingFacts.

(** X8.  When [list_by_user] of the SQL store returns, the table is as it
    was; every transaction listed is of the user and under an id of the
    table; every row of the user is listed; and the list has as many
    entries as the user has rows. *)
Theorem sql_list_by_user_exact (user_id : string) (rows rows' : table)
    (l : list Transaction.t) :
  SQLAlchemyTransactionRepository.list_by_user user_id rows = (Ok l, rows') ->
  rows' = rows
  /\ (forall t, In t l ->
        Transaction.user_id t = user_id /\ In (Transaction.id t) (ids rows))
  /\ (forall row, In row rows -> TransactionORM.user_id row = user_id ->
        In (TransactionORM.id row) (map Transaction.id l))
  /\ List.length l
     = List.length (filter (fun row => String.eqb (TransactionORM.user_id row) user_id) rows).
Proof.
  intros Hl. pose proof (list_by_user_inv _ _ _ _ Hl) as [Hrows Htr].
  split; [assumption | split; [|split]].
  - intros t Hin.
    destruct (proj1 (listed_iff_selected _ _ Htr) t Hin) as (row & Hrow & Hdom).
    apply In_order_by_desc, filter_In in Hrow. destruct Hrow as [Hrow Hu].
    apply to_domain_fields in Hdom. destruct Hdom as (Hid & Huser & _).
    rewrite Hid, Huser. split; [now apply String.eqb_eq|].
    unfold ids. now apply in_map.
  - intros row Hin Hu. now apply (list_by_user_complete user_id rows rows' l).
  - rewrite (traverse_length _ _ _ Htr). apply length_order_by_desc.
Qed.

Lemma sql_list_by_user_exact_witness :
  exists l,
    SQLAlchemyTransactionRepository.list_by_user "u1" sample_table = (Ok l, sample_table)
    /\ List.length l = 3%nat
    /\ forall t, In t l -> Transaction.user_id t = "u1".
Proof.
  destruct (SQLAlchemyTransactionRepository.list_by_user "u1" sample_table)
    as [[l|e] rows'] eqn:Hl; [|vm_compute in Hl; discriminate].
  destruct (sql_list_by_user_exact "u1" sample_table rows' l Hl)
    as (Hrows & Hsound & _ & Hlen).
  subst rows'. exists l. split; [reflexivity | split].
  - rewrite Hlen. vm_compute. reflexivity.
  - intros t Hin. exact (proj1 (Hsound t Hin)).
Defined.

(** X9.  The three listings of the SQL store come in the order they ask
    for: [list_by_user] and [list_by_user_and_categories] newest created
    first, [list_by_user_and_period] newest occurred first. *)
Theorem sql_listings_ordered (user_id : string) (category_ids : list string)
    (start_at end_at : datetime) (rows : table) :
  (forall l rows',
      SQLAlchemyTransactionRepository.list_by_user user_id rows = (Ok l, rows') ->
      descending (map (fun t => utc_instant (Transaction.created_at t)) l))
  /\ (forall l rows',
      SQLAlchemyTransactionRepository.list_by_user_and_categories
        user_id category_ids rows = (Ok l, rows') ->
      descending (map (fun t => utc_instant (Transaction.created_at t)) l))
  /\ (forall l rows',
      SQLAlchemyTransactionRepository.list_by_user_and_period
        user_id start_at end_at rows = (Ok l, rows') ->
      descending (map (fun t => utc_instant (Transaction.occurred_at t)) l)).
Proof.
  assert (Hcreated : forall selected l,
    traverse SQLAlchemyTransactionRepository._to_domain
      (order_by_desc (fun row => utc_instant (TransactionORM.created_at row)) selected)
    = Ok l ->
    descending (map (fun t => utc_instant (Transaction.created_at t)) l)).
  { intros selected l Htr.
    assert (Hkey : forall row t,
               SQLAlchemyTransactionRepository._to_domain row = Ok t ->
               utc_instant (Transaction.created_at t)
               = utc_instant (TransactionORM.created_at row)).
    { intros row t Hdom. apply to_domain_times in Hdom. destruct Hdom as [_ ->].
      reflexivity. }
    rewrite (traverse_map _ _ _ _ _ Hkey Htr).
    apply descending_order_by_desc. }
  split; [|split].
  - intros l rows' Hl. apply list_by_user_inv in Hl. destruct Hl as [_ Htr].
    now apply (Hcreated _ _ Htr).
  - intros l rows' Hl.
    unfold SQLAlchemyTransactionRepository.list_by_user_and_categories in Hl.
    destruct category_ids as [|c0 cs].
    + inversion Hl. exact I.
    + inversion Hl as [[Htr Hrows]]. now apply (Hcreated _ _ Htr).
  - intros l rows' Hl. apply list_by_period_inv in Hl. destruct Hl as [_ Htr].
    assert (Hkey : forall row t,
               SQLAlchemyTransactionRepository._to_domain row = Ok t ->
               utc_instant (Transaction.occurred_at t)
               = utc_instant (TransactionORM.occurred_at row)).
    { intros row t Hdom. apply to_domain_times in Hdom. destruct Hdom as [-> _].
      reflexivity. }
    rewrite (traverse_map _ _ _ _ _ Hkey Htr).
    apply descending_order_by_desc.
Qed.

Lemma sql_listings_ordered_witness :
  SQLAlchemyTransactionRepository.list_by_user "u1" sample_table
  = (Ok sample_fetched, sample_table)
  /\ descending (map (fun t => utc_instant (Transaction.created_at t)) sample_fetched).
Proof.
  assert (Hl : SQLAlchemyTransactionRepository.list_by_user "u1" sample_table
               = (Ok sample_fetched, sample_table))
    by (vm_compute; reflexivity).
  split; [exact Hl|].
  destruct (sql_listings_ordered "u1" [] (naive 0) (naive 0) sample_table) as (Hord & _).
  exact (Hord _ _ Hl).
Defined.



(** X11.  When [list_by_user_and_categories] of the SQL store returns,
    every transaction listed is of the user and filed under one of the
    categories asked for, so none without category is; and every row of the
    user filed under one of them is listed. *)
Theorem sql_list_by_categories_exact (user_id : string) (category_ids : list string)
    (rows rows' : table) (l : list Transaction.t) :
  SQLAlchemyTransactionRepository.list_by_user_and_categories user_id category_ids rows
  = (Ok l, rows') ->
  (forall t, In t l ->
     Transaction.user_id t = user_id
     /\ exists c, Transaction.category_id t = Some c /\ In c category_ids)
  /\ (forall row c, In row rows -> TransactionORM.user_id row = user_id ->
        TransactionORM.category_id row = Some c -> In c category_ids ->
        In (TransactionORM.id row) (map Transaction.id l)).
Proof.
  intros Hl. split.
  - now apply (sql_list_by_categories_contract user_id category_ids rows rows' l).
  - intros row c Hin Hu Hc Hcs.
    now apply (list_by_categories_complete user_id category_ids rows rows' l row c).
Qed.

Lemma sql_list_by_categories_exact_witness :
  exists l,
    SQLAlchemyTransactionRepository.list_by_user_and_categories
      "u1" ["transport"; "health"] sample_table = (Ok l, sample_table)
    /\ In "t3" (map Transaction.id l)
    /\ forall t, In t l -> Transaction.user_id t = "u1".
Proof.
  destruct (SQLAlchemyTransactionRepository.list_by_user_and_categories
              "u1" ["transport"; "health"] sample_table)
    as [[l|e] rows'] eqn:Hl; [|vm_compute in Hl; discriminate].
  destruct (sql_list_by_categories_exact "u1" ["transport"; "health"]
              sample_table rows' l Hl) as (Hsound & Hcomplete).
  exists l. split; [vm_compute in Hl; inversion Hl; reflexivity | split].
  - apply (Hcomplete
             (row_of (tx_of "t3" "u1" expense (dec 40 0) (Some "transport") 12 102))
             "transport");
      [vm_compute; auto | reflexivity | reflexivity | simpl; auto].
  - intros t Hin. exact (proj1 (Hsound t Hin)).
Defined.



(** ** Amounts below half a cent *)




(** ** Recording a transaction and reading it back *)

Section RecordThenRead.

Import TransactionService.

(** What a successful [record_transaction] built and did. *)
Lemma record_transaction_ok_inv {R : Type} {repo : TransactionRepository R}
    (uuid : string) (clock : Z) (user_id tx_type : string) (amount : Decimal.t)
    (currency : string) (occurred_at : datetime)
    (category_id account_id description : option string) (r r' : R)
    (tx : Transaction.t) :
  record_transaction uuid clock user_id tx_type amount currency occurred_at
    category_id account_id description r = (Ok tx, r') ->
  (exists ttype,
      tx_type = TransactionTypeM.value ttype
      /\ tx = Transaction.mk uuid user_id ttype (Money.mk amount currency)
                (_normalize_datetime occurred_at) (mk_datetime clock (Some UTC))
                category_id account_id description)
  /\ Money.post_init (Money.mk amount currency) = Ok tt
  /\ user_id <> ""
  /\ add tx r = (Ok tt, r').
Proof.
  unfold record_transaction, bind, lift.
  destruct (parse_type tx_type) as [ttype|e] eqn:Ety; [|discriminate].
  unfold Money.init.
  destruct (Money.post_init (Money.mk amount currency)) as [[]|e] eqn:Em; [|discriminate].
  unfold Transaction.create.
  destruct (String.eqb_spec user_id "") as [Hu | Hu]; [discriminate|].
  change (match tzinfo occurred_at with
          | Some _ => occurred_at
          | None => replace_tzinfo occurred_at UTC
          end) with (_normalize_datetime occurred_at).
  destruct (normalize_aware occurred_at) as [off Hoff]. rewrite Hoff.
  match goal with
  | |- context [add ?t r] => destruct (add t r) as [[[]|e] r0] eqn:Eadd
  end; [|discriminate].
  unfold ret. intros Heq. inversion Heq. subst tx r0.
  split; [|auto].
  exists ttype. split; [|reflexivity].
  unfold parse_type, TransactionTypeM.of_value in Ety.
  destruct (String.eqb_spec tx_type "expense") as [-> |_].
  - inversion Ety. reflexivity.
  - destruct (String.eqb_spec tx_type "income") as [-> |_].
    + inversion Ety. reflexivity.
    + discriminate.
Qed.

Lemma get_transaction_found {R : Type} {repo : TransactionRepository R}
    (user_id transaction_id : string) (r r' : R) (tx : Transaction.t) :
  get transaction_id r = (Ok (Some tx), r') ->
  get_transaction user_id transaction_id r
  = if String.eqb (Transaction.user_id tx) user_id
    then (Ok tx, r')
    else (Raise (NotFoundError "Transaction not found"), r').
Proof.
  intros Hget. unfold get_transaction, bind. rewrite Hget.
  destruct (String.eqb _ _); reflexivity.
Qed.

End RecordThenRead.

(** X14.  The in-memory store gives back what it was given: after [add],
    [get] with the id returns the very transaction, whatever was under the
    id before; [get] with another id returns what it returned before; and
    the ids of the store stay distinct. *)
Theorem in_memory_add_get (tx : Transaction.t) (other_id : string)
    (items : InMemoryTransactionRepository.items) :
  let items' := snd (InMemoryTransactionRepository.add tx items) in
  InMemoryTransactionRepository.get (Transaction.id tx) items' = (Ok (Some tx), items')
  /\ (other_id <> Transaction.id tx ->
      fst (InMemoryTransactionRepository.get other_id items')
      = fst (InMemoryTransactionRepository.get other_id items))
  /\ (NoDup (keys items) -> NoDup (keys items')).
Proof.
  simpl. unfold InMemoryTransactionRepository.get. simpl. split; [|split].
  - now rewrite (dict_get_set_same string_key_eqb_eq).
  - intros Hne. now rewrite (dict_get_set_other string_key_eqb_eq).
  - apply (NoDup_keys_dict_set string_key_eqb_eq).
Qed.

Lemma in_memory_add_get_witness :
  "t3" <> Transaction.id tx_new
  /\ fst (InMemoryTransactionRepository.get "t3"
            (snd (InMemoryTransactionRepository.add tx_new sample_items)))
     = fst (InMemoryTransactionRepository.get "t3" sample_items).
Proof.
  assert (Hne : "t3" <> Transaction.id tx_new) by discriminate.
  split; [exact Hne|].
  destruct (in_memory_add_get tx_new "t3" sample_items) as (_ & Hframe & _).
  exact (Hframe Hne).
Defined.

(** X15.  With the in-memory store: the transaction [record_transaction]
    returned is what [get_transaction] returns to its user under its id,
    and every other user gets [NotFoundError]. *)
Theorem in_memory_record_then_get
    (uuid : string) (clock : Z) (user_id tx_type : string) (amount : Decimal.t)
    (currency : string) (occurred_at : datetime)
    (category_id account_id description : option string)
    (items items' : InMemoryTransactionRepository.items) (tx : Transaction.t) :
  TransactionService.record_transaction (R := InMemoryTransactionRepository.items)
    uuid clock user_id tx_type amount currency occurred_at
    category_id account_id description items = (Ok tx, items') ->
  TransactionService.get_transaction (R := InMemoryTransactionRepository.items)
    user_id uuid items' = (Ok tx, items')
  /\ (forall other, other <> user_id ->
        TransactionService.get_transaction (R := InMemoryTransactionRepository.items)
          other uuid items'
        = (Raise (NotFoundError "Transaction not found"), items')).
Proof.
  intros Hrec. apply record_transaction_ok_inv in Hrec.
  destruct Hrec as ((ttype & _ & Htx) & _ & _ & Hadd).
  assert (Hid : Transaction.id tx = uuid) by (subst tx; reflexivity).
  assert (Huser : Transaction.user_id tx = user_id) by (subst tx; reflexivity).
  assert (Hget : get (R := InMemoryTransactionRepository.items) uuid items'
                 = (Ok (Some tx), items')).
  { simpl in Hadd. unfold InMemoryTransactionRepository.add in Hadd.
    inversion Hadd as [Hitems]. rewrite Hid.
    simpl. unfold InMemoryTransactionRepository.get.
    now rewrite (dict_get_set_same string_key_eqb_eq). }
  split.
  - rewrite (get_transaction_found _ _ _ _ _ Hget), Huser, String.eqb_refl. reflexivity.
  - intros other Hne. rewrite (get_transaction_found _ _ _ _ _ Hget), Huser.
    assert (Hf : String.eqb user_id other = false) by (apply String.eqb_neq; congruence).
    now rewrite Hf.
Qed.

Lemma in_memory_record_then_get_witness :
  exists items',
    TransactionService.record_transaction (R := InMemoryTransactionRepository.items)
      "t7" 1000 "u1" "income" (dec 1050 2) "RUB" (naive 55) (Some "salary") None
      (Some "pay") sample_items = (Ok tx_new, items')
    /\ TransactionService.get_transaction (R := InMemoryTransactionRepository.items)
         "u1" "t7" items' = (Ok tx_new, items')
    /\ TransactionService.get_transaction (R := InMemoryTransactionRepository.items)
         "u2" "t7" items' = (Raise (NotFoundError "Transaction not found"), items').
Proof.
  eexists.
  assert (Hrec :
    TransactionService.record_transaction (R := InMemoryTransactionRepository.items)
      "t7" 1000 "u1" "income" (dec 1050 2) "RUB" (naive 55) (Some "salary") None
      (Some "pay") sample_items
    = (Ok tx_new, snd (InMemoryTransactionRepository.add tx_new sample_items)))
    by (vm_compute; reflexivity).
  destruct (in_memory_record_then_get _ _ _ _ _ _ _ _ _ _ _ _ _ Hrec) as (Hown & Hother).
  split; [exact Hrec | split; [exact Hown|]].
  apply Hother. discriminate.
Defined.



(** X17.  With the SQL store, a [record_transaction] that raises has left
    the table as it was. *)
Theorem sql_record_failure_leaves_table
    (uuid : string) (clock : Z) (user_id tx_type : string) (amount : Decimal.t)
    (currency : string) (occurred_at : datetime)
    (category_id account_id description : option string)
    (rows rows' : table) (e : exn) :
  TransactionService.record_transaction (R := table)
    uuid clock user_id tx_type amount currency occurred_at
    category_id account_id description rows = (Raise e, rows') ->
  rows' = rows.
Proof.
  unfold TransactionService.record_transaction, bind, lift.
  destruct (TransactionService.parse_type tx_type); [|intros H; now inversion H].
  destruct (Money.init amount currency); [|intros H; now inversion H].
  destruct (Transaction.create _ _ _ _ _ _ _ _ _) as [tx|e0]; [|intros H; now inversion H].
  simpl. unfold SQLAlchemyTransactionRepository.add.
  destruct (session_add_commit _ rows); simpl.
  - unfold ret. discriminate.
  - intros H. now inversion H.
Qed.

Lemma sql_record_failure_leaves_table_witness :
  TransactionService.record_transaction (R := table)
    "t1" 1000 "u1" "income" (dec 1050 2) "RUB" (naive 55) None None None sample_table
  = (Raise (IntegrityError "UNIQUE constraint failed: transactions.id"), sample_table).
Proof.
  destruct (TransactionService.record_transaction (R := table)
              "t1" 1000 "u1" "income" (dec 1050 2) "RUB" (naive 55) None None None
              sample_table) as [[tx|e] rows'] eqn:Hrec;
    [vm_compute in Hrec; discriminate|].
  rewrite (sql_record_failure_leaves_table _ _ _ _ _ _ _ _ _ _ _ _ _ Hrec).
  vm_compute in Hrec. inversion Hrec. reflexivity.
Defined.

(** X18.  With the SQL store, the four reading operations of the service
    leave the table as it was, whether they return or raise. *)
Theorem sql_service_reads_leave_table (user_id transaction_id : string)
    (category_ids : list string) (start_at end_at : datetime) (rows : table) :
  snd (TransactionService.get_transaction (R := table) user_id transaction_id rows) = rows
  /\ snd (TransactionService.list_transactions (R := table) user_id rows) = rows
  /\ snd (TransactionService.get_transactions_by_categories (R := table)
            user_id category_ids rows) = rows
  /\ snd (TransactionService.get_transactions_for_period (R := table)
            user_id start_at end_at rows) = rows.
Proof.
  split; [|split; [|split]].
  - unfold TransactionService.get_transaction, bind. simpl.
    unfold SQLAlchemyTransactionRepository.get.
    destruct (session_get transaction_id rows) as [row|]; [|reflexivity].
    destruct (SQLAlchemyTransactionRepository._to_domain row) as [tx|e]; [|reflexivity].
    destruct (negb _); reflexivity.
  - reflexivity.
  - unfold TransactionService.get_transactions_by_categories.
    destruct (keys (fromkeys category_ids)) as [|c0 cs]; [reflexivity|].
    unfold bind. simpl.
    destruct (traverse _ _) as [l|e]; [|reflexivity].
    destruct (fold_left _ l _) as [t d]. reflexivity.
  - unfold TransactionService.get_transactions_for_period.
    unfold bind at 1. unfold lift. rewrite normalized_gt.
    destruct (_ <? _); [reflexivity|].
    unfold bind. simpl.
    unfold SQLAlchemyTransactionRepository.list_by_user_and_period.
    destruct (traverse _ _) as [l|e]; [|reflexivity].
    destruct (fold_left _ l _) as [t d]. reflexivity.
Qed.

(** ** The engine and the session factory *)

Section DbFacts.

Import Db.





End DbFacts.



(** ** The routes *)

Section RouteFacts.

Import TransactionService.

(** With a known type, a positive amount, a currency of 3 characters and a
    user, [record_transaction] is [add] of the transaction it builds. *)
Lemma record_transaction_valid_run {R : Type} {repo : TransactionRepository R}
    (uuid : string) (clock : Z) (user_id : string) (ttype : TransactionType)
    (amount : Decimal.t) (currency : string) (occurred_at : datetime)
    (category_id account_id description : option string) (r : R) :
  0 < Decimal.unscaled amount ->
  String.length currency = 3%nat ->
  user_id <> "" ->
  let tx :=
    Transaction.mk uuid user_id ttype (Money.mk amount currency)
      (_normalize_datetime occurred_at) (mk_datetime clock (Some UTC))
      category_id account_id description in
  record_transaction uuid clock user_id (TransactionTypeM.value ttype) amount currency
    occurred_at category_id account_id description r
  = match add tx r with
    | (Ok _, r') => (Ok tx, r')
    | (Raise e, r') => (Raise e, r')
    end.
Proof.
  intros Ha Hc Hu tx.
  unfold record_transaction, bind, lift.
  rewrite parse_type_value, (money_init_ok _ _ Ha Hc).
  unfold Transaction.create.
  apply String.eqb_neq in Hu. rewrite Hu.
  change (match tzinfo occurred_at with
          | Some _ => occurred_at
          | None => replace_tzinfo occurred_at UTC
          end) with (_normalize_datetime occurred_at).
  destruct (normalize_aware occurred_at) as [off Hoff]. rewrite Hoff.
  fold tx. destruct (add tx r) as [[[]|e] r']; reflexivity.
Qed.

(** What the request model lets through. *)
Lemma request_validated_inv (request : Api.TransactionCreateRequest) :
  Api.request_validated request = true ->
  (exists ttype, Api.req_type request = TransactionTypeM.value ttype)
  /\ 0 < Decimal.unscaled (Api.req_amount request)
  /\ String.length (Api.req_currency request) = 3%nat
  /\ match Api.req_description request with
     | None => True
     | Some d => (String.length d <= 500)%nat
     end.
Proof.
  unfold Api.request_validated. intros H.
  apply andb_prop in H. destruct H as [H Hd].
  apply andb_prop in H. destruct H as [H Hc].
  apply andb_prop in H. destruct H as [Ht Ha].
  split; [|split; [|split]].
  - apply orb_prop in Ht. destruct Ht as [Ht | Ht]; apply String.eqb_eq in Ht.
    + now exists expense.
    + now exists income.
  - now apply Z.ltb_lt.
  - now apply Nat.eqb_eq.
  - destruct (Api.req_description request); [now apply Nat.leb_le | exact I].
Qed.

(** [add] of the SQL store raises nothing but the errors of the database. *)
Lemma sql_add_error_kind (tx : Transaction.t) (rows rows' : table) (e : exn) :
  SQLAlchemyTransactionRepository.add tx rows = (Raise e, rows') ->
  (exists msg, e = IntegrityError msg) \/ (exists msg, e = DataError msg).
Proof.
  unfold SQLAlchemyTransactionRepository.add, session_add_commit,
    TransactionORM.stored, Numeric, String_nullable, String_.
  simpl.
  destruct (_ <? _); [|intros H; inversion H; eauto].
  destruct (_ <=? 3)%nat; [|intros H; inversion H; eauto].
  destruct (Transaction.description tx) as [d|].
  - destruct (_ <=? 500)%nat; [|intros H; inversion H; eauto]. simpl.
    destruct (session_get _ rows); intros H; inversion H; eauto.
  - simpl. destruct (session_get _ rows); intros H; inversion H; eauto.
Qed.

(** When the columns can hold the values and the id is new, [add] of the
    SQL store accepts. *)
Lemma sql_add_accepts (tx : Transaction.t) (rows : table) :
  Z.abs (Decimal.unscaled (Decimal.quantize 2 (amount_of tx))) < Decimal.pow10 12 ->
  (String.length (Money.currency (Transaction.money tx)) <= 3)%nat ->
  match Transaction.description tx with
  | None => True
  | Some d => (String.length d <= 500)%nat
  end ->
  ~ In (Transaction.id tx) (ids rows) ->
  SQLAlchemyTransactionRepository.add tx rows = (Ok tt, rows ++ [row_of tx]).
Proof.
  intros Hp Hc Hd Hnew.
  unfold SQLAlchemyTransactionRepository.add, session_add_commit,
    TransactionORM.stored, Numeric, String_nullable, String_.
  simpl. fold (amount_of tx).
  apply Z.ltb_lt in Hp. rewrite Hp.
  apply Nat.leb_le in Hc. rewrite Hc.
  apply session_get_None in Hnew.
  unfold row_of.
  destruct (Transaction.description tx) as [d|].
  - apply Nat.leb_le in Hd. rewrite Hd. simpl. now rewrite Hnew.
  - simpl. now rewrite Hnew.
Qed.

Lemma list_by_user_sound (user_id : string) (rows rows' : table)
    (l : list Transaction.t) (t : Transaction.t) :
  SQLAlchemyTransactionRepository.list_by_user user_id rows = (Ok l, rows') ->
  In t l -> Transaction.user_id t = user_id.
Proof.
  intros Hl Hin. apply list_by_user_inv in Hl. destruct Hl as [_ Htr].
  destruct (proj1 (listed_iff_selected _ _ Htr) t Hin) as (row & Hrow & Hdom).
  apply In_order_by_desc in Hrow. apply filter_In in Hrow. destruct Hrow as [_ Hu].
  apply to_domain_fields in Hdom. destruct Hdom as (_ & Huser & _).
  rewrite Huser. now apply String.eqb_eq.
Qed.

Lemma list_by_period_sound (user_id : string) (s e : datetime) (rows rows' : table)
    (l : list Transaction.t) (t : Transaction.t) :
  SQLAlchemyTransactionRepository.list_by_user_and_period user_id s e rows = (Ok l, rows') ->
  In t l -> Transaction.user_id t = user_id.
Proof.
  intros Hl Hin. apply list_by_period_inv in Hl. destruct Hl as [_ Htr].
  destruct (proj1 (listed_iff_selected _ _ Htr) t Hin) as (row & Hrow & Hdom).
  apply In_order_by_desc in Hrow.
  apply filter_In in Hrow. destruct Hrow as [Hrow _].
  apply filter_In in Hrow. destruct Hrow as [Hrow _].
  apply filter_In in Hrow. destruct Hrow as [_ Hu].
  apply to_domain_fields in Hdom. destruct Hdom as (_ & Huser & _).
  rewrite Huser. now apply String.eqb_eq.
Qed.

Lemma responses_user (l : list Transaction.t) (user_id : string) :
  (forall t, In t l -> Transaction.user_id t = user_id) ->
  forall b, In b (map Api._to_response l) -> Api.user_id b = user_id.
Proof.
  intros Hall b Hb. apply in_map_iff in Hb. destruct Hb as (t & <- & Ht).
  simpl. now apply Hall.
Qed.

End RouteFacts.

(** X21.  [POST /transactions] over the SQL store, for a request that
    meets the constraints of the request model: the route never raises
    [HTTPException] (nothing of the domain validation can fail); and when
    the generated id is new and the amount fits the column, it answers 201
    with the transaction of [demo-user] under that id, the amount as sent,
    the timestamp made aware, and one row more in the table. *)
Theorem api_create_validated (uuid : string) (clock : Z)
    (request : Api.TransactionCreateRequest) (rows : table) :
  Api.request_validated request = true ->
  (forall status_code detail,
     fst (Api.create_transaction (R := table) uuid clock request rows)
     <> Api.HTTPException status_code detail)
  /\ (~ In uuid (ids rows) ->
      Z.abs (Decimal.unscaled (Decimal.quantize 2 (Api.req_amount request)))
      < Decimal.pow10 12 ->
      exists tx,
        Api.create_transaction (R := table) uuid clock request rows
        = (Api.Response 201 (Api._to_response tx), rows ++ [row_of tx])
        /\ Transaction.id tx = uuid
        /\ Transaction.user_id tx = "demo-user"
        /\ amount_of tx = Api.req_amount request
        /\ Transaction.occurred_at tx
           = TransactionService._normalize_datetime (Api.req_occurred_at request)
        /\ Transaction.created_at tx = mk_datetime clock (Some UTC)).
Proof.
  intros Hvalid. apply request_validated_inv in Hvalid.
  destruct Hvalid as ((ttype & Hty) & Ha & Hc & Hd).
  assert (Hu : "demo-user" <> "") by discriminate.
  unfold Api.create_transaction. rewrite Hty.
  rewrite (record_transaction_valid_run (R := table) uuid clock "demo-user" ttype
             _ _ (Api.req_occurred_at request) (Api.req_category_id request)
             (Api.req_account_id request) (Api.req_description request) rows Ha Hc Hu).
  match goal with
  | |- context [add ?t rows] => set (tx := t)
  end.
  split.
  - intros status_code detail. simpl.
    destruct (SQLAlchemyTransactionRepository.add tx rows) as [[[]|e] rows'] eqn:Hadd;
      [discriminate|].
    destruct (sql_add_error_kind _ _ _ _ Hadd) as [(msg & ->) | (msg & ->)]; discriminate.
  - intros Hnew Hp. exists tx. simpl.
    rewrite (sql_add_accepts tx rows); try assumption.
    + repeat split; reflexivity.
    + simpl. lia.
Qed.

Lemma api_create_validated_witness :
  Api.request_validated sample_request = true
  /\ ~ In "t7" (ids sample_table)
  /\ exists tx,
       Api.create_transaction (R := table) "t7" 1000 sample_request sample_table
       = (Api.Response 201 (Api._to_response tx), sample_table ++ [row_of tx])
       /\ Transaction.user_id tx = "demo-user".
Proof.
  assert (H1 : Api.request_validated sample_request = true) by reflexivity.
  assert (H2 : ~ In "t7" (ids sample_table)).
  { vm_compute. intros H. repeat (destruct H as [H | H]; [discriminate|]). exact H. }
  assert (H3 : Z.abs (Decimal.unscaled
                        (Decimal.quantize 2 (Api.req_amount sample_request)))
               < Decimal.pow10 12) by (vm_compute; reflexivity).
  destruct (api_create_validated "t7" 1000 sample_request sample_table H1) as (_ & Hok).
  destruct (Hok H2 H3) as (tx & Hrun & _ & Huser & _).
  split; [exact H1 | split; [exact H2|]].
  exists tx. split; [exact Hrun | exact Huser].
Defined.

(** X22.  Over the SQL store, every transaction in a body the four reading
    routes return is a transaction of [demo-user]. *)
Theorem api_reads_only_demo_user (transaction_id : string) (category_ids : list string)
    (start_at end_at : datetime) (rows : table) :
  (forall status_code body rows',
      Api.get_transaction (R := table) transaction_id rows
      = (Api.Response status_code body, rows') ->
      Api.user_id body = "demo-user")
  /\ (forall status_code body rows',
      Api.list_transactions (R := table) rows = (Api.Response status_code body, rows') ->
      forall b, In b body -> Api.user_id b = "demo-user")
  /\ (forall status_code body rows',
      Api.list_transactions_by_categories (R := table) category_ids rows
      = (Api.Response status_code body, rows') ->
      forall b, In b (Api.bc_transactions body) -> Api.user_id b = "demo-user")
  /\ (forall status_code body rows',
      Api.list_transactions_by_period (R := table) start_at end_at rows
      = (Api.Response status_code body, rows') ->
      forall b, In b (Api.ps_transactions body) -> Api.user_id b = "demo-user").
Proof.
  split; [|split; [|split]].
  - intros status_code body rows'. unfold Api.get_transaction.
    destruct (TransactionService.get_transaction "demo-user" transaction_id rows)
      as [[tx|e] r] eqn:Hget.
    + intros Heq. inversion Heq. subst body. simpl.
      unfold TransactionService.get_transaction, bind in Hget.
      destruct (get transaction_id rows) as [[[t|]|e] r0]; try discriminate.
      destruct (String.eqb_spec (Transaction.user_id t) "demo-user") as [Hu | Hu];
        simpl in Hget; [|discriminate].
      unfold ret in Hget. inversion Hget. now subst.
    + destruct e; discriminate.
  - intros status_code body rows'. unfold Api.list_transactions.
    destruct (TransactionService.list_transactions "demo-user" rows)
      as [[l|e] r] eqn:Hl; [|discriminate].
    intros Heq. inversion Heq. subst body.
    apply responses_user. intros t Hin.
    now apply (list_by_user_sound "demo-user" rows r l).
  - intros status_code body rows'. unfold Api.list_transactions_by_categories.
    destruct (TransactionService.get_transactions_by_categories "demo-user"
                category_ids rows) as [[[[l total] by_cat]|e] r] eqn:Hl.
    + intros Heq. inversion Heq. subst body. simpl.
      apply by_categories_ok_inv in Hl. destruct Hl as (_ & Hlist & _).
      apply responses_user. intros t Hin.
      destruct (sql_list_by_categories_contract _ _ _ _ _ Hlist) as (_ & Hall).
      now apply Hall.
    + destruct e; discriminate.
  - intros status_code body rows'. unfold Api.list_transactions_by_period.
    destruct (TransactionService.get_transactions_for_period "demo-user"
                start_at end_at rows) as [[[[l total] by_cat]|e] r] eqn:Hl.
    + intros Heq. inversion Heq. subst body. simpl.
      apply for_period_ok_inv in Hl. destruct Hl as (Hlist & _).
      apply responses_user. intros t Hin.
      simpl in Hlist.
      exact (list_by_period_sound "demo-user" _ _ rows r l t Hlist Hin).
    + destruct e; discriminate.
Qed.

Lemma api_reads_only_demo_user_witness :
  exists body,
    Api.list_transactions (R := table) demo_table = (Api.Response 200 body, demo_table)
    /\ List.length body = 3%nat
    /\ forall b, In b body -> Api.user_id b = "demo-user".
Proof.
  destruct (Api.list_transactions (R := table) demo_table) as [[code body| |] rows'] eqn:Hl;
    try (vm_compute in Hl; discriminate).
  destruct (api_reads_only_demo_user "d1" [] (naive 0) (naive 0) demo_table)
    as (_ & Hlist & _).
  exists body. split; [|split].
  - vm_compute in Hl. inversion Hl. reflexivity.
  - vm_compute in Hl. inversion Hl. reflexivity.
  - exact (Hlist code body rows' Hl).
Defined.



(** X24.  How the routes answer the failures of the service, whatever the
    store: an empty list of categories, a period whose start is after its
    end, an unknown type and an amount that is not positive are answered
    422 with the message of the validation error, the store not having
    been touched; a transaction that is absent or belongs to another user
    is answered 404 with one and the same message. *)
Theorem api_error_mapping {R : Type} {repo : TransactionRepository R} (r : R) :
  Api.list_transactions_by_categories [] r
  = (Api.HTTPException 422 "category_ids must not be empty", r)
  /\ (forall start_at end_at,
        utc_instant end_at < utc_instant start_at ->
        Api.list_transactions_by_period start_at end_at r
        = (Api.HTTPException 422 "start_at must be before or equal to end_at", r))
  /\ (forall uuid clock request,
        Api.req_type request <> "expense" -> Api.req_type request <> "income" ->
        Api.create_transaction uuid clock request r
        = (Api.HTTPException 422
             ("Unsupported transaction type: " ++ Api.req_type request), r))
  /\ (forall uuid clock request ttype,
        Api.req_type request = TransactionTypeM.value ttype ->
        Decimal.unscaled (Api.req_amount request) <= 0 ->
        Api.create_transaction uuid clock request r
        = (Api.HTTPException 422 "Amount must be greater than 0", r))
  /\ (forall transaction_id r',
        get transaction_id r = (Ok None, r') ->
        Api.get_transaction transaction_id r
        = (Api.HTTPException 404 "Transaction not found", r'))
  /\ (forall transaction_id tx r',
        get transaction_id r = (Ok (Some tx), r') ->
        Transaction.user_id tx <> "demo-user" ->
        Api.get_transaction transaction_id r
        = (Api.HTTPException 404 "Transaction not found", r')).
Proof.
  split; [|split; [|split; [|split; [|split]]]].
  - reflexivity.
  - intros start_at end_at Hgt.
    unfold Api.list_transactions_by_period,
      TransactionService.get_transactions_for_period.
    unfold bind at 1. unfold lift. rewrite normalized_gt.
    apply Z.ltb_lt in Hgt. rewrite Hgt. reflexivity.
  - intros uuid clock request He Hi.
    unfold Api.create_transaction, TransactionService.record_transaction, bind, lift.
    now rewrite (parse_type_unknown _ He Hi).
  - intros uuid clock request ttype Hty Ha.
    unfold Api.create_transaction, TransactionService.record_transaction, bind, lift.
    rewrite Hty, parse_type_value, (money_init_nonpositive _ _ Ha). reflexivity.
  - intros transaction_id r' Hget.
    unfold Api.get_transaction, TransactionService.get_transaction, bind.
    now rewrite Hget.
  - intros transaction_id tx r' Hget Hne.
    unfold Api.get_transaction.
    rewrite (get_transaction_found _ _ _ _ _ Hget).
    apply String.eqb_neq in Hne. now rewrite Hne.
Qed.

Lemma api_error_mapping_witness :
  Api.list_transactions_by_period (R := table) (at_utc 200) (naive 100) demo_table
  = (Api.HTTPException 422 "start_at must be before or equal to end_at", demo_table)
  /\ Api.get_transaction (R := table) "d2" demo_table
     = (Api.HTTPException 404 "Transaction not found", demo_table)
  /\ Api.get_transaction (R := table) "d9" demo_table
     = (Api.HTTPException 404 "Transaction not found", demo_table).
Proof.
  destruct (api_error_mapping (R := table) demo_table)
    as (_ & Hperiod & _ & _ & Habsent & Hother).
  split; [|split].
  - apply Hperiod. vm_compute. reflexivity.
  - apply (Hother "d2" (tx_of "d2" "other" expense (dec 500 2) (Some "food") 11 101)).
    + vm_compute. reflexivity.
    + discriminate.
  - apply Habsent. vm_compute. reflexivity.
Defined.


